(** * Booking API: providers, bookings and their business rules

    A shallow embedding of the repository and service layers of the
    booking-management API (app/models, app/schemas, app/repositories,
    app/services), with the relational store and the wall clock made
    explicit, followed by the properties of the layered pipeline.

    Conventions.
    - A Python [int] is a [Z]; a Python [str] is the list of its Unicode code
      points; a naive UTC [datetime] is the number of microseconds since the
      epoch, so that the comparisons of [datetime] are those of [Z].
    - The values are those the store takes: text without NUL and without a
      lone surrogate, which the driver refuses to send, and times without a
      zone, the only ones [datetime.utcnow()] compares with. What a commit
      does with other values is not modelled.
    - A table is the list of its rows in physical order; a primary key is
      drawn from the table's sequence.
    - [datetime.utcnow()] reads a clock: the world carries the sequence of
      readings the clock will give and the number of readings taken so far.
    - A raised exception is an outcome of its own; the store of the outcome
      is the committed one. *)

From Stdlib Require Import ZArith NArith List Bool String Ascii Lia.
From Stdlib Require Import Sorted Permutation DecimalString.
Import ListNotations.

Local Open Scope Z_scope.

(** ** Python values *)

Definition char := N.
Definition str := list char.
Definition datetime := Z.

(** [str.isspace] on one character: the code points whose general category
    is Zs or whose bidirectional class is WS, B or S. *)
Definition isspace (c : char) : bool :=
  (((9 <=? c) && (c <=? 13)) || ((28 <=? c) && (c <=? 32))
   || (c =? 133) || (c =? 160) || (c =? 5760)
   || ((8192 <=? c) && (c <=? 8202))
   || (c =? 8232) || (c =? 8233) || (c =? 8239) || (c =? 8287)
   || (c =? 12288))%N.

Fixpoint lstrip (s : str) : str :=
  match s with
  | [] => []
  | c :: s' => if isspace c then lstrip s' else s
  end.

Definition rstrip (s : str) : str := rev (lstrip (rev s)).

(** [s.strip()] *)
Definition strip (s : str) : str := rstrip (lstrip s).

(** [bool(s)] for a string, an int and a datetime. *)
Definition truthy_str (s : str) : bool :=
  match s with [] => false | _ :: _ => true end.

Definition truthy_int (n : Z) : bool := negb (n =? 0).

Definition truthy_datetime (_ : datetime) : bool := true.

(** [str(n)] for an int, as used by the f-strings of the error messages. *)
Definition str_of_int (n : Z) : string := NilZero.string_of_int (Z.to_int n).

(** The spec's reading of "empty or whitespace-only". *)
Definition whitespace_only (s : str) : bool := forallb isspace s.

Definition str_eq_dec : forall a b : str, {a = b} + {a <> b} :=
  list_eq_dec N.eq_dec.

Definition opt_str_eq_dec : forall a b : option str, {a = b} + {a <> b}.
Proof. decide equality; apply str_eq_dec. Defined.

(** A field of a pydantic model that may be left out of the payload:
    [Unset] is not in [model_fields_set], so that
    [model_dump(exclude_unset=True)] drops it. *)
Inductive field (A : Type) : Type :=
| Unset
| Provided (v : A).
Arguments Unset {A}.
Arguments Provided {A} v.

(** pydantic's [min_length]/[max_length] on a string. *)
Definition length_between (lo hi : nat) (s : str) : bool :=
  (Nat.leb lo (List.length s)) && (Nat.leb (List.length s) hi).

(** ** app/models *)

Module BookingStatus.
Inductive t : Type := PENDING | CONFIRMED | COMPLETED | CANCELLED.

Definition value (s : t) : string :=
  match s with
  | PENDING => "pending"
  | CONFIRMED => "confirmed"
  | COMPLETED => "completed"
  | CANCELLED => "cancelled"
  end%string.

Definition eq_dec : forall a b : t, {a = b} + {a <> b}.
Proof. decide equality. Defined.

Definition eqb (a b : t) : bool := if eq_dec a b then true else false.

(** The enum derives from [str]: its truth value is that of its value. *)
Definition truthy (s : t) : bool := negb (String.eqb (value s) "").
End BookingStatus.

Module Provider.
Record t : Type := mk {
  id : Z;
  name : str;
  sector : str;
  phone : option str;
  email : option str;
  address : option str;
  is_active : bool;
  created_at : datetime;
  updated_at : datetime
}.

Definition eq_dec : forall a b : t, {a = b} + {a <> b}.
Proof.
  decide equality;
    first [ apply Z.eq_dec | apply str_eq_dec | apply opt_str_eq_dec
          | apply bool_dec ].
Defined.

Definition set_updated_at (p : t) (now : datetime) : t :=
  mk (id p) (name p) (sector p) (phone p) (email p) (address p)
     (is_active p) (created_at p) now.
End Provider.

Module Booking.
Record t : Type := mk {
  id : Z;
  provider_id : Z;
  client_name : str;
  client_phone : str;
  client_email : option str;
  service_type : option str;
  scheduled_at : datetime;
  status : BookingStatus.t;
  notes : option str;
  created_at : datetime;
  updated_at : datetime
}.

Definition eq_dec : forall a b : t, {a = b} + {a <> b}.
Proof.
  decide equality;
    first [ apply Z.eq_dec | apply str_eq_dec | apply opt_str_eq_dec
          | apply BookingStatus.eq_dec ].
Defined.

Definition set_updated_at (b : t) (now : datetime) : t :=
  mk (id b) (provider_id b) (client_name b) (client_phone b)
     (client_email b) (service_type b) (scheduled_at b) (status b)
     (notes b) (created_at b) now.
End Booking.

(** ** app/schemas *)

Module ProviderCreate.
Record t : Type := mk {
  name : str;
  sector : str;
  phone : option str;
  email : option str;
  address : option str
}.

(** The [Field] constraints of [ProviderBase]. *)
Definition valid (d : t) : bool :=
  length_between 1 255 (name d) && length_between 1 100 (sector d)
  && match phone d with
     | None => true
     | Some s => length_between 0 50 s
     end.
End ProviderCreate.

Module ProviderUpdate.
Record t : Type := mk {
  name : field (option str);
  sector : field (option str);
  phone : field (option str);
  email : field (option str);
  address : field (option str);
  is_active : field (option bool)
}.

Definition empty : t := mk Unset Unset Unset Unset Unset Unset.

Definition valid_str (lo hi : nat) (f : field (option str)) : bool :=
  match f with
  | Provided (Some s) => length_between lo hi s
  | _ => true
  end.

(** The [Field] constraints of [ProviderUpdate]. *)
Definition valid (d : t) : bool :=
  valid_str 1 255 (name d) && valid_str 1 100 (sector d)
  && valid_str 0 50 (phone d).
End ProviderUpdate.

Module BookingCreate.
(** [BookingCreate] adds nothing to [BookingBase]: there is no status. *)
Record t : Type := mk {
  provider_id : Z;
  client_name : str;
  client_phone : str;
  client_email : option str;
  service_type : option str;
  scheduled_at : datetime;
  notes : option str
}.
End BookingCreate.

Module BookingUpdate.
Record t : Type := mk {
  client_name : field (option str);
  client_phone : field (option str);
  client_email : field (option str);
  service_type : field (option str);
  scheduled_at : field (option datetime);
  status : field (option BookingStatus.t);
  notes : field (option str)
}.

Definition empty : t := mk Unset Unset Unset Unset Unset Unset Unset.
End BookingUpdate.

(** ** The store, the clock and the monad of a request *)

Record DB : Type := mkDB {
  providers : list Provider.t;
  bookings : list Booking.t;
  providers_id_seq : Z;
  bookings_id_seq : Z
}.

Record World : Type := mkWorld {
  db : DB;
  clock : nat -> datetime;
  reads : nat
}.

(** The instant [datetime.utcnow()] gives when read in [w]. *)
Definition now (w : World) : datetime := clock w (reads w).

Inductive exn : Type :=
| ValueError (msg : string)
| IntegrityError.

Inductive outcome (A : Type) : Type :=
| Return (a : A) (w : World)
| Raise (e : exn) (w : World).
Arguments Return {A} a w.
Arguments Raise {A} e w.

Definition M (A : Type) : Type := World -> outcome A.

Definition ret {A} (a : A) : M A := fun w => Return a w.

Definition bind {A B} (m : M A) (k : A -> M B) : M B :=
  fun w =>
    match m w with
    | Return a w' => k a w'
    | Raise e w' => Raise e w'
    end.

Definition raise {A} (e : exn) : M A := fun w => Raise e w.

Declare Scope request_scope.
Delimit Scope request_scope with request.
Notation "x <- c ;; k" := (bind c (fun x => k))
  (at level 61, c at next level, right associativity) : request_scope.
Notation "c ;;; k" := (bind c (fun _ => k))
  (at level 61, right associativity) : request_scope.
Local Open Scope request_scope.

(** The world after one more reading of the clock. *)
Definition tick (w : World) : World :=
  mkWorld (db w) (clock w) (S (reads w)).

Definition utcnow : M datetime := fun w => Return (now w) (tick w).

Definition query {A} (f : DB -> A) : M A := fun w => Return (f (db w)) w.

Definition commit (f : DB -> DB) : M unit :=
  fun w => Return tt (mkWorld (f (db w)) (clock w) (reads w)).

(** The store an outcome leaves behind. *)
Definition world_of {A} (o : outcome A) : World :=
  match o with Return _ w => w | Raise _ w => w end.

Definition db_of {A} (o : outcome A) : DB := db (world_of o).

(** Assignment of a payload field to a column that is not nullable:
    [None] is a value the flush refuses. *)
Definition set_required {A} (old : A) (f : field (option A)) : option A :=
  match f with
  | Unset => Some old
  | Provided None => None
  | Provided (Some v) => Some v
  end.

Definition set_nullable {A} (old : option A) (f : field (option A))
  : option A :=
  match f with
  | Unset => old
  | Provided v => v
  end.

(** ** app/repositories/provider_repository.py *)

Module ProviderRepository.

Definition create (data : ProviderCreate.t) : M Provider.t :=
  created <- utcnow ;;
  updated <- utcnow ;;
  id <- query (fun d => providers_id_seq d + 1) ;;
  let provider :=
    Provider.mk id (ProviderCreate.name data) (ProviderCreate.sector data)
      (ProviderCreate.phone data) (ProviderCreate.email data)
      (ProviderCreate.address data) true created updated in
  commit (fun d => mkDB (providers d ++ [provider]) (bookings d)
                        id (bookings_id_seq d)) ;;;
  ret provider.

Definition get_by_id (provider_id : Z) : M (option Provider.t) :=
  query (fun d => find (fun p => Provider.id p =? provider_id) (providers d)).

(** [skip] and [limit] are naturals: the routes admit [skip >= 0] and
    [1 <= limit <= 100] only. [if sector:] is false for the empty string. *)
Definition list_all (skip limit : nat) (sector : option str)
  : M (list Provider.t) :=
  query (fun d =>
    let q := providers d in
    let q :=
      match sector with
      | Some s =>
          if truthy_str s
          then filter (fun p => if str_eq_dec (Provider.sector p) s
                                then true else false) q
          else q
      | None => q
      end in
    firstn limit (skipn skip q)).

(** The loop [for field, value in update_data.items(): setattr(...)] over
    the fields the payload sets; [None] when a column that is not nullable
    would receive NULL. *)
Definition setattrs (provider : Provider.t) (data : ProviderUpdate.t)
  : option Provider.t :=
  match set_required (Provider.name provider) (ProviderUpdate.name data),
        set_required (Provider.sector provider) (ProviderUpdate.sector data),
        set_required (Provider.is_active provider)
                     (ProviderUpdate.is_active data) with
  | Some name, Some sector, Some is_active =>
      Some (Provider.mk (Provider.id provider) name sector
              (set_nullable (Provider.phone provider)
                            (ProviderUpdate.phone data))
              (set_nullable (Provider.email provider)
                            (ProviderUpdate.email data))
              (set_nullable (Provider.address provider)
                            (ProviderUpdate.address data))
              is_active (Provider.created_at provider)
              (Provider.updated_at provider))
  | _, _, _ => None
  end.

Definition replace_row (row : Provider.t) (rows : list Provider.t)
  : list Provider.t :=
  map (fun p => if Provider.id p =? Provider.id row then row else p) rows.

(** The commit of an update: no statement is sent for an object without a
    net change; otherwise the row is written and [onupdate] reads the
    clock for [updated_at]. *)
Definition update (provider_id : Z) (data : ProviderUpdate.t)
  : M (option Provider.t) :=
  provider <- get_by_id provider_id ;;
  match provider with
  | None => ret None
  | Some provider =>
      match setattrs provider data with
      | None => raise IntegrityError
      | Some changed =>
          if Provider.eq_dec changed provider then ret (Some provider)
          else
            updated <- utcnow ;;
            let row := Provider.set_updated_at changed updated in
            commit (fun d => mkDB (replace_row row (providers d))
                                  (bookings d) (providers_id_seq d)
                                  (bookings_id_seq d)) ;;;
            ret (Some row)
      end
  end.

(** A provider that bookings still reference cannot be removed: the
    foreign key [bookings.provider_id] is not nullable. *)
Definition delete (provider_id : Z) : M bool :=
  provider <- get_by_id provider_id ;;
  match provider with
  | None => ret false
  | Some provider =>
      referenced <- query (fun d =>
        existsb (fun b => Booking.provider_id b =? Provider.id provider)
                (bookings d)) ;;
      if referenced : bool then raise IntegrityError
      else
        commit (fun d =>
          mkDB (filter (fun p => negb (Provider.id p =? Provider.id provider))
                       (providers d))
               (bookings d) (providers_id_seq d) (bookings_id_seq d)) ;;;
        ret true
  end.

End ProviderRepository.

(** ** app/repositories/booking_repositories.py *)

Module BookingRepository.

(** [status] is not among the dumped fields, so the column default
    applies; the insert needs the referenced provider to exist. *)
Definition create (data : BookingCreate.t) : M Booking.t :=
  created <- utcnow ;;
  updated <- utcnow ;;
  referenced <- query (fun d =>
    existsb (fun p => Provider.id p =? BookingCreate.provider_id data)
            (providers d)) ;;
  if referenced : bool then
    id <- query (fun d => bookings_id_seq d + 1) ;;
    let booking :=
      Booking.mk id (BookingCreate.provider_id data)
        (BookingCreate.client_name data) (BookingCreate.client_phone data)
        (BookingCreate.client_email data) (BookingCreate.service_type data)
        (BookingCreate.scheduled_at data) BookingStatus.PENDING
        (BookingCreate.notes data) created updated in
    commit (fun d => mkDB (providers d) (bookings d ++ [booking])
                          (providers_id_seq d) id) ;;;
    ret booking
  else raise IntegrityError.

Definition get_by_id (booking_id : Z) : M (option Booking.t) :=
  query (fun d => find (fun b => Booking.id b =? booking_id) (bookings d)).

(** [ORDER BY scheduled_at]: a stable insertion sort, rows with the same
    instant staying in table order. *)
Fixpoint insert_by_scheduled_at (b : Booking.t) (l : list Booking.t)
  : list Booking.t :=
  match l with
  | [] => [b]
  | x :: l' =>
      if Booking.scheduled_at b <=? Booking.scheduled_at x then b :: l
      else x :: insert_by_scheduled_at b l'
  end.

Definition order_by_scheduled_at (l : list Booking.t) : list Booking.t :=
  fold_right insert_by_scheduled_at [] l.

(** [if x: query = query.filter(...)] for an optional argument. *)
Definition filter_if {A} (truthy : A -> bool) (arg : option A)
    (cond : A -> Booking.t -> bool) (q : list Booking.t)
  : list Booking.t :=
  match arg with
  | Some x => if truthy x then filter (cond x) q else q
  | None => q
  end.

(** The four filters, each under its [if], then the ordering, the offset
    and the limit ([skip] and [limit] as for providers). *)
Definition list_all (skip limit : nat) (provider_id : option Z)
    (status : option BookingStatus.t) (from_date to_date : option datetime)
  : M (list Booking.t) :=
  query (fun d =>
    let q := bookings d in
    let q := filter_if truthy_int provider_id
               (fun x b => Booking.provider_id b =? x) q in
    let q := filter_if BookingStatus.truthy status
               (fun x b => BookingStatus.eqb (Booking.status b) x) q in
    let q := filter_if truthy_datetime from_date
               (fun x b => Booking.scheduled_at b >=? x) q in
    let q := filter_if truthy_datetime to_date
               (fun x b => Booking.scheduled_at b <=? x) q in
    firstn limit (skipn skip (order_by_scheduled_at q))).

Definition setattrs (booking : Booking.t) (data : BookingUpdate.t)
  : option Booking.t :=
  match set_required (Booking.client_name booking)
                     (BookingUpdate.client_name data),
        set_required (Booking.client_phone booking)
                     (BookingUpdate.client_phone data),
        set_required (Booking.scheduled_at booking)
                     (BookingUpdate.scheduled_at data),
        set_required (Booking.status booking)
                     (BookingUpdate.status data) with
  | Some client_name, Some client_phone, Some scheduled_at, Some status =>
      Some (Booking.mk (Booking.id booking) (Booking.provider_id booking)
              client_name client_phone
              (set_nullable (Booking.client_email booking)
                            (BookingUpdate.client_email data))
              (set_nullable (Booking.service_type booking)
                            (BookingUpdate.service_type data))
              scheduled_at status
              (set_nullable (Booking.notes booking)
                            (BookingUpdate.notes data))
              (Booking.created_at booking) (Booking.updated_at booking))
  | _, _, _, _ => None
  end.

Definition replace_row (row : Booking.t) (rows : list Booking.t)
  : list Booking.t :=
  map (fun b => if Booking.id b =? Booking.id row then row else b) rows.

Definition update (booking_id : Z) (data : BookingUpdate.t)
  : M (option Booking.t) :=
  booking <- get_by_id booking_id ;;
  match booking with
  | None => ret None
  | Some booking =>
      match setattrs booking data with
      | None => raise IntegrityError
      | Some changed =>
          if Booking.eq_dec changed booking then ret (Some booking)
          else
            updated <- utcnow ;;
            let row := Booking.set_updated_at changed updated in
            commit (fun d => mkDB (providers d)
                                  (replace_row row (bookings d))
                                  (providers_id_seq d)
                                  (bookings_id_seq d)) ;;;
            ret (Some row)
      end
  end.

Definition delete (booking_id : Z) : M bool :=
  booking <- get_by_id booking_id ;;
  match booking with
  | None => ret false
  | Some booking =>
      commit (fun d =>
        mkDB (providers d)
             (filter (fun b => negb (Booking.id b =? Booking.id booking))
                     (bookings d))
             (providers_id_seq d) (bookings_id_seq d)) ;;;
      ret true
  end.

End BookingRepository.

(** ** app/services/provider_service.py *)

Module ProviderService.

Definition not_found (provider_id : Z) : exn :=
  ValueError ("Provider with ID " ++ str_of_int provider_id ++ " not found").

Definition register_provider (data : ProviderCreate.t) : M Provider.t :=
  if negb (truthy_str (strip (ProviderCreate.name data)))
  then raise (ValueError "Provider name cannot be empty")
  else if negb (truthy_str (strip (ProviderCreate.sector data)))
  then raise (ValueError "Provider sector cannot be empty")
  else ProviderRepository.create data.

Definition get_provider (provider_id : Z) : M Provider.t :=
  provider <- ProviderRepository.get_by_id provider_id ;;
  match provider with
  | None => raise (not_found provider_id)
  | Some provider => ret provider
  end.

Definition get_providers (skip limit : nat) (sector : option str)
  : M (list Provider.t) :=
  ProviderRepository.list_all skip limit sector.

Definition update_provider (provider_id : Z) (data : ProviderUpdate.t)
  : M Provider.t :=
  provider <- ProviderRepository.update provider_id data ;;
  match provider with
  | None => raise (not_found provider_id)
  | Some provider => ret provider
  end.

Definition delete_provider (provider_id : Z) : M bool :=
  success <- ProviderRepository.delete provider_id ;;
  if success : bool then ret true else raise (not_found provider_id).

End ProviderService.

(** ** app/services/booking_service.py *)

Module BookingService.

Definition not_found (booking_id : Z) : exn :=
  ValueError ("Booking with ID " ++ str_of_int booking_id ++ " not found").

Definition create_booking (data : BookingCreate.t) : M Booking.t :=
  provider <- ProviderRepository.get_by_id (BookingCreate.provider_id data) ;;
  match provider with
  | None =>
      raise (ValueError ("Provider with ID "
                         ++ str_of_int (BookingCreate.provider_id data)
                         ++ " not found"))
  | Some provider =>
      if negb (Provider.is_active provider)
      then raise (ValueError
                    "Provider is not active and cannot accept bookings")
      else
        current <- utcnow ;;
        if BookingCreate.scheduled_at data <? current
        then raise (ValueError "Scheduled time must be in the future")
        else BookingRepository.create data
  end.

Definition get_booking (booking_id : Z) : M Booking.t :=
  booking <- BookingRepository.get_by_id booking_id ;;
  match booking with
  | None => raise (not_found booking_id)
  | Some booking => ret booking
  end.

Definition get_bookings (skip limit : nat) (provider_id : option Z)
    (status : option BookingStatus.t) (from_date to_date : option datetime)
  : M (list Booking.t) :=
  BookingRepository.list_all skip limit provider_id status from_date to_date.

Definition update_booking (booking_id : Z) (data : BookingUpdate.t)
  : M Booking.t :=
  booking <- BookingRepository.update booking_id data ;;
  match booking with
  | None => raise (not_found booking_id)
  | Some booking => ret booking
  end.

Definition cancel_booking (booking_id : Z) : M Booking.t :=
  let update_data :=
    BookingUpdate.mk Unset Unset Unset Unset Unset
      (Provided (Some BookingStatus.CANCELLED)) Unset in
  update_booking booking_id update_data.

Definition delete_booking (booking_id : Z) : M bool :=
  success <- BookingRepository.delete booking_id ;;
  if success : bool then ret true else raise (not_found booking_id).

End BookingService.

(** ** The public operations as requests *)

Inductive request : Type :=
| RegisterProvider (data : ProviderCreate.t)
| GetProvider (provider_id : Z)
| GetProviders (skip limit : nat) (sector : option str)
| UpdateProvider (provider_id : Z) (data : ProviderUpdate.t)
| DeleteProvider (provider_id : Z)
| CreateBooking (data : BookingCreate.t)
| GetBooking (booking_id : Z)
| GetBookings (skip limit : nat) (provider_id : option Z)
    (status : option BookingStatus.t) (from_date to_date : option datetime)
| UpdateBooking (booking_id : Z) (data : BookingUpdate.t)
| CancelBooking (booking_id : Z)
| DeleteBooking (booking_id : Z).

(** The world a request leaves behind, whatever it answers. *)
Definition handle (r : request) (w : World) : World :=
  match r with
  | RegisterProvider data => world_of (ProviderService.register_provider data w)
  | GetProvider i => world_of (ProviderService.get_provider i w)
  | GetProviders skip limit sector =>
      world_of (ProviderService.get_providers skip limit sector w)
  | UpdateProvider i data => world_of (ProviderService.update_provider i data w)
  | DeleteProvider i => world_of (ProviderService.delete_provider i w)
  | CreateBooking data => world_of (BookingService.create_booking data w)
  | GetBooking i => world_of (BookingService.get_booking i w)
  | GetBookings skip limit p s f t =>
      world_of (BookingService.get_bookings skip limit p s f t w)
  | UpdateBooking i data => world_of (BookingService.update_booking i data w)
  | CancelBooking i => world_of (BookingService.cancel_booking i w)
  | DeleteBooking i => world_of (BookingService.delete_booking i w)
  end.

Definition run (rs : list request) (w : World) : World :=
  fold_left (fun w r => handle r w) rs w.

(** ** Properties stated on the model *)

(** What the specification says [list_all] of bookings returns: the rows
    meeting every filter that is supplied, ordered, then paginated. *)
Module ListAllSpec.
Definition supplied {A} (arg : option A) (cond : A -> bool) : bool :=
  match arg with Some x => cond x | None => true end.

Definition matches (provider_id : option Z) (status : option BookingStatus.t)
    (from_date to_date : option datetime) (b : Booking.t) : bool :=
  supplied provider_id (fun x => Booking.provider_id b =? x)
  && supplied status (fun x => BookingStatus.eqb (Booking.status b) x)
  && supplied from_date (fun x => x <=? Booking.scheduled_at b)
  && supplied to_date (fun x => Booking.scheduled_at b <=? x).

Definition list_all (skip limit : nat) (provider_id : option Z)
    (status : option BookingStatus.t) (from_date to_date : option datetime)
    (d : DB) : list Booking.t :=
  firstn limit
    (skipn skip
       (BookingRepository.order_by_scheduled_at
          (filter (matches provider_id status from_date to_date)
                  (bookings d)))).
End ListAllSpec.

(** The order of the listing. *)
Definition earlier (a b : Booking.t) : Prop :=
  Booking.scheduled_at a <= Booking.scheduled_at b.

Definition find_booking (booking_id : Z) (d : DB) : option Booking.t :=
  find (fun b => Booking.id b =? booking_id) (bookings d).

Definition find_provider (provider_id : Z) (d : DB) : option Provider.t :=
  find (fun p => Provider.id p =? provider_id) (providers d).

(** A payload field left out keeps the column. *)
Definition kept {A B} (f : field A) (old new : B) : Prop :=
  f = Unset -> new = old.

Definition booking_frame (data : BookingUpdate.t) (old new : Booking.t)
  : Prop :=
  Booking.id new = Booking.id old
  /\ Booking.provider_id new = Booking.provider_id old
  /\ Booking.created_at new = Booking.created_at old
  /\ kept (BookingUpdate.client_name data)
          (Booking.client_name old) (Booking.client_name new)
  /\ kept (BookingUpdate.client_phone data)
          (Booking.client_phone old) (Booking.client_phone new)
  /\ kept (BookingUpdate.client_email data)
          (Booking.client_email old) (Booking.client_email new)
  /\ kept (BookingUpdate.service_type data)
          (Booking.service_type old) (Booking.service_type new)
  /\ kept (BookingUpdate.scheduled_at data)
          (Booking.scheduled_at old) (Booking.scheduled_at new)
  /\ kept (BookingUpdate.status data)
          (Booking.status old) (Booking.status new)
  /\ kept (BookingUpdate.notes data) (Booking.notes old) (Booking.notes new).

Definition provider_frame (data : ProviderUpdate.t) (old new : Provider.t)
  : Prop :=
  Provider.id new = Provider.id old
  /\ Provider.created_at new = Provider.created_at old
  /\ kept (ProviderUpdate.name data) (Provider.name old) (Provider.name new)
  /\ kept (ProviderUpdate.sector data)
          (Provider.sector old) (Provider.sector new)
  /\ kept (ProviderUpdate.phone data) (Provider.phone old) (Provider.phone new)
  /\ kept (ProviderUpdate.email data) (Provider.email old) (Provider.email new)
  /\ kept (ProviderUpdate.address data)
          (Provider.address old) (Provider.address new)
  /\ kept (ProviderUpdate.is_active data)
          (Provider.is_active old) (Provider.is_active new).

(** The rows of a table other than the one addressed. *)
Definition other_bookings (booking_id : Z) (d : DB) : list Booking.t :=
  filter (fun b => negb (Booking.id b =? booking_id)) (bookings d).

Definition other_providers (provider_id : Z) (d : DB) : list Provider.t :=
  filter (fun p => negb (Provider.id p =? provider_id)) (providers d).

(** Name and sector with content that is not whitespace. *)
Definition has_content (s : str) : Prop := whitespace_only s = false.

Definition provider_ok (p : Provider.t) : Prop :=
  has_content (Provider.name p) /\ has_content (Provider.sector p).

Definition store_ok (d : DB) : Prop := Forall provider_ok (providers d).

Definition field_has_content (f : field (option str)) : Prop :=
  match f with
  | Provided (Some s) => has_content s
  | _ => True
  end.

Definition request_keeps_content (r : request) : Prop :=
  match r with
  | UpdateProvider _ data =>
      field_has_content (ProviderUpdate.name data)
      /\ field_has_content (ProviderUpdate.sector data)
  | _ => True
  end.

(** ** Sample data *)

Module Sample.
Definition text (s : string) : str :=
  map N_of_ascii (list_ascii_of_string s).

(** A clock that starts at one million and advances by one per reading. *)
Definition ticking (n : nat) : datetime := Z.of_nat n + 1000000.

Definition empty_world : World := mkWorld (mkDB [] [] 0 0) ticking 0.

Definition city_clinic : ProviderCreate.t :=
  ProviderCreate.mk (text "City Clinic") (text "medical") None None None.

(** The world after the clinic has registered: two readings were taken. *)
Definition clinic_world : World :=
  world_of (ProviderService.register_provider city_clinic empty_world).

Definition john (scheduled_at : datetime) : BookingCreate.t :=
  BookingCreate.mk 1 (text "John Doe") (text "+1234567890") None None
    scheduled_at None.

(** The world after a booking a week of microseconds ahead was made. *)
Definition booked_world : World :=
  world_of (BookingService.create_booking (john 604800000000) clinic_world).

Definition confirm : BookingUpdate.t :=
  BookingUpdate.mk Unset Unset Unset Unset Unset
    (Provided (Some BookingStatus.CONFIRMED)) Unset.

(** The booking as stored, and as stored once confirmed. *)
Definition pending_booking : Booking.t :=
  Booking.mk 1 1 (text "John Doe") (text "+1234567890") None None
    604800000000 BookingStatus.PENDING None 1000003 1000004.

Definition confirmed_booking : Booking.t :=
  Booking.mk 1 1 (text "John Doe") (text "+1234567890") None None
    604800000000 BookingStatus.CONFIRMED None 1000003 1000005.

Definition blank_name : ProviderUpdate.t :=
  ProviderUpdate.mk (Provided (Some (text " "))) Unset Unset Unset Unset
    Unset.
End Sample.

(** ** app/api *)

(** What a route that addresses one record hands to the framework: a body
    with the status code of the decorator, an [HTTPException], or an
    exception the route does not catch. *)
Inductive response (A : Type) : Type :=
| Respond (status_code : Z) (body : A) (w : World)
| HTTPException (status_code : Z) (detail : string) (w : World)
| Unhandled (e : exn) (w : World).
Arguments Respond {A} status_code body w.
Arguments HTTPException {A} status_code detail w.
Arguments Unhandled {A} e w.

Definition world_after {A} (r : response A) : World :=
  match r with
  | Respond _ _ w => w
  | HTTPException _ _ w => w
  | Unhandled _ w => w
  end.

(** [try: return m except ValueError as e: raise HTTPException(failure,
    str(e))] under a decorator with status code [success]. *)
Definition except_ValueError {A} (success failure : Z) (m : M A)
  : World -> response A :=
  fun w =>
    match m w with
    | Return a w' => Respond success a w'
    | Raise (ValueError msg) w' => HTTPException failure msg w'
    | Raise e w' => Unhandled e w'
    end.

Module ProviderRoutes.

Definition create_provider (payload : ProviderCreate.t)
  : World -> response Provider.t :=
  except_ValueError 201 400 (ProviderService.register_provider payload).

Definition get_provider (provider_id : Z) : World -> response Provider.t :=
  except_ValueError 200 404 (ProviderService.get_provider provider_id).

Definition update_provider (provider_id : Z) (payload : ProviderUpdate.t)
  : World -> response Provider.t :=
  except_ValueError 200 404
    (ProviderService.update_provider provider_id payload).

Definition delete_provider (provider_id : Z) : World -> response unit :=
  except_ValueError 204 404
    (ProviderService.delete_provider provider_id ;;; ret tt).

End ProviderRoutes.

Module BookingRoutes.

Definition create_booking (payload : BookingCreate.t)
  : World -> response Booking.t :=
  except_ValueError 201 400 (BookingService.create_booking payload).

Definition get_booking (booking_id : Z) : World -> response Booking.t :=
  except_ValueError 200 404 (BookingService.get_booking booking_id).

Definition update_booking (booking_id : Z) (payload : BookingUpdate.t)
  : World -> response Booking.t :=
  except_ValueError 200 404 (BookingService.update_booking booking_id payload).

Definition cancel_booking (booking_id : Z) : World -> response Booking.t :=
  except_ValueError 200 404 (BookingService.cancel_booking booking_id).

Definition delete_booking (booking_id : Z) : World -> response unit :=
  except_ValueError 204 404
    (BookingService.delete_booking booking_id ;;; ret tt).

End BookingRoutes.

(** ** Invariants of the store *)

(** Primary keys: distinct within a table and drawn from its sequence. *)
Definition keys_ok (d : DB) : Prop :=
  NoDup (map Provider.id (providers d))
  /\ Forall (fun p => Provider.id p <= providers_id_seq d) (providers d)
  /\ NoDup (map Booking.id (bookings d))
  /\ Forall (fun b => Booking.id b <= bookings_id_seq d) (bookings d).

(** The foreign key: every booking names a provider of the table. *)
Definition references_ok (d : DB) : Prop :=
  Forall (fun b => In (Booking.provider_id b) (map Provider.id (providers d)))
         (bookings d).

(** A clock that never goes back. *)
Definition monotone (c : nat -> datetime) : Prop :=
  forall n m : nat, (n <= m)%nat -> c n <= c m.

(** The audit stamps: creation no later than the last update, none later
    than the clock. *)
Definition stamps_ok (w : World) : Prop :=
  Forall (fun p => Provider.created_at p <= Provider.updated_at p
                   /\ Provider.updated_at p <= now w)
         (providers (db w))
  /\ Forall (fun b => Booking.created_at b <= Booking.updated_at b
                      /\ Booking.updated_at b <= now w)
            (bookings (db w)).

(** A clock each reading of which is later than the one before. *)
Definition advancing (c : nat -> datetime) : Prop :=
  forall n : nat, c n < c (S n).

(** Every [updated_at] of the store is earlier than the next reading of the
    clock. *)
Definition stamps_before (w : World) : Prop :=
  Forall (fun p => Provider.updated_at p < now w) (providers (db w))
  /\ Forall (fun b => Booking.updated_at b < now w) (bookings (db w)).

(** The payload sets no column that is not nullable to null. *)
Definition no_null {A} (f : field (option A)) : bool :=
  match f with Provided None => false | _ => true end.

Definition booking_payload_ok (data : BookingUpdate.t) : bool :=
  no_null (BookingUpdate.client_name data)
  && no_null (BookingUpdate.client_phone data)
  && no_null (BookingUpdate.scheduled_at data)
  && no_null (BookingUpdate.status data).

Definition provider_payload_ok (data : ProviderUpdate.t) : bool :=
  no_null (ProviderUpdate.name data)
  && no_null (ProviderUpdate.sector data)
  && no_null (ProviderUpdate.is_active data).

(** ** The transitions of the store *)

(** The ways a request can move the world: it leaves it alone, or only reads
    the clock, or commits one insertion, one update or one deletion. *)
Inductive step (w : World) : World -> Prop :=
| step_same : step w w
| step_tick : step w (tick w)
| step_register (data : ProviderCreate.t) :
    step w
      (mkWorld
         (mkDB (providers (db w)
                ++ [Provider.mk (providers_id_seq (db w) + 1)
                      (ProviderCreate.name data) (ProviderCreate.sector data)
                      (ProviderCreate.phone data) (ProviderCreate.email data)
                      (ProviderCreate.address data) true
                      (now w) (now (tick w))])
               (bookings (db w))
               (providers_id_seq (db w) + 1) (bookings_id_seq (db w)))
         (clock w) (S (S (reads w))))
| step_update_provider (i : Z) (data : ProviderUpdate.t) (p c : Provider.t) :
    find_provider i (db w) = Some p ->
    ProviderRepository.setattrs p data = Some c ->
    step w
      (mkWorld
         (mkDB (ProviderRepository.replace_row
                  (Provider.set_updated_at c (now w)) (providers (db w)))
               (bookings (db w))
               (providers_id_seq (db w)) (bookings_id_seq (db w)))
         (clock w) (S (reads w)))
| step_delete_provider (i : Z) (p : Provider.t) :
    find_provider i (db w) = Some p ->
    existsb (fun b => Booking.provider_id b =? i) (bookings (db w)) = false ->
    step w
      (mkWorld
         (mkDB (other_providers i (db w)) (bookings (db w))
               (providers_id_seq (db w)) (bookings_id_seq (db w)))
         (clock w) (reads w))
| step_book (data : BookingCreate.t) (p : Provider.t) :
    find_provider (BookingCreate.provider_id data) (db w) = Some p ->
    step w
      (mkWorld
         (mkDB (providers (db w))
               (bookings (db w)
                ++ [Booking.mk (bookings_id_seq (db w) + 1)
                      (BookingCreate.provider_id data)
                      (BookingCreate.client_name data)
                      (BookingCreate.client_phone data)
                      (BookingCreate.client_email data)
                      (BookingCreate.service_type data)
                      (BookingCreate.scheduled_at data)
                      BookingStatus.PENDING (BookingCreate.notes data)
                      (now (tick w)) (now (tick (tick w)))])
               (providers_id_seq (db w)) (bookings_id_seq (db w) + 1))
         (clock w) (S (S (S (reads w)))))
| step_update_booking (i : Z) (data : BookingUpdate.t) (b c : Booking.t) :
    find_booking i (db w) = Some b ->
    BookingRepository.setattrs b data = Some c ->
    step w
      (mkWorld
         (mkDB (providers (db w))
               (BookingRepository.replace_row
                  (Booking.set_updated_at c (now w)) (bookings (db w)))
               (providers_id_seq (db w)) (bookings_id_seq (db w)))
         (clock w) (S (reads w)))
| step_delete_booking (i : Z) (b : Booking.t) :
    find_booking i (db w) = Some b ->
    step w
      (mkWorld
         (mkDB (providers (db w)) (other_bookings i (db w))
               (providers_id_seq (db w)) (bookings_id_seq (db w)))
         (clock w) (reads w)).

(** * Properties *)

(** ** Trimming *)

Section Strip.

Lemma truthy_lstrip (s : str) :
  truthy_str (lstrip s) = negb (whitespace_only s).
Proof.
  induction s as [|c s IH]; simpl; [reflexivity|].
  destruct (isspace c); simpl; [exact IH | reflexivity].
Qed.

Lemma whitespace_only_lstrip (s : str) :
  whitespace_only (lstrip s) = whitespace_only s.
Proof.
  induction s as [|c s IH]; simpl; [reflexivity|].
  destruct (isspace c) eqn:E; simpl; [exact IH | now rewrite E].
Qed.

Lemma whitespace_only_rev (s : str) :
  whitespace_only (rev s) = whitespace_only s.
Proof.
  unfold whitespace_only.
  induction s as [|c s IH]; simpl; [reflexivity|].
  rewrite forallb_app, IH; simpl.
  now rewrite andb_true_r, andb_comm.
Qed.

Lemma truthy_rev (s : str) : truthy_str (rev s) = truthy_str s.
Proof.
  destruct s as [|c s]; simpl; [reflexivity|].
  now destruct (rev s).
Qed.

(** [s.strip()] is falsy exactly for a string of whitespace. *)
Lemma truthy_strip (s : str) :
  truthy_str (strip s) = negb (whitespace_only s).
Proof.
  unfold strip, rstrip.
  now rewrite truthy_rev, truthy_lstrip, whitespace_only_rev,
    whitespace_only_lstrip.
Qed.

End Strip.

(** ** Tables addressed by key *)

Section Tables.
Context {A : Type} (key : A -> Z).

Lemma find_key (k : Z) (rows : list A) (r : A) :
  find (fun r => key r =? k) rows = Some r -> key r = k /\ In r rows.
Proof.
  intros H. apply find_some in H. destruct H as [Hin Hk].
  split; [now apply Z.eqb_eq | exact Hin].
Qed.

Lemma find_replaced (k : Z) (rows : list A) (old row : A) :
  find (fun r => key r =? k) rows = Some old -> key row = k ->
  find (fun r => key r =? k) (map (fun r => if key r =? key row then row else r) rows)
  = Some row.
Proof.
  intros Hfind Hrow. subst k.
  induction rows as [|r rows IH]; simpl in *; [discriminate|].
  destruct (key r =? key row) eqn:E.
  - now rewrite Z.eqb_refl.
  - rewrite E. now apply IH.
Qed.

Lemma find_removed (k : Z) (rows : list A) :
  find (fun r => key r =? k) (filter (fun r => negb (key r =? k)) rows) = None.
Proof.
  induction rows as [|r rows IH]; simpl; [reflexivity|].
  destruct (key r =? k) eqn:E; simpl; [exact IH | now rewrite E].
Qed.

Lemma others_replaced (k : Z) (rows : list A) (row : A) :
  key row = k ->
  filter (fun r => negb (key r =? k))
         (map (fun r => if key r =? key row then row else r) rows)
  = filter (fun r => negb (key r =? k)) rows.
Proof.
  intros Hrow. subst k.
  induction rows as [|r rows IH]; simpl; [reflexivity|].
  destruct (key r =? key row) eqn:E; simpl.
  - now rewrite Z.eqb_refl.
  - now rewrite E, IH.
Qed.

Lemma find_appended (k : Z) (rows more : list A) :
  find (fun r => key r =? k) (rows ++ more)
  = match find (fun r => key r =? k) rows with
    | Some r => Some r
    | None => find (fun r => key r =? k) more
    end.
Proof.
  induction rows as [|r rows IH]; simpl; [reflexivity|].
  now destruct (key r =? k).
Qed.

Lemma find_none_filter (k : Z) (rows : list A) :
  find (fun r => key r =? k) rows = None ->
  filter (fun r => negb (key r =? k)) rows = rows.
Proof.
  induction rows as [|r rows IH]; simpl; [reflexivity|].
  destruct (key r =? k); simpl; [discriminate|].
  intros H. now rewrite IH.
Qed.

End Tables.

(** ** Composition of filters *)

Section Filters.
Context {A : Type}.

Lemma filter_filter (f g : A -> bool) (l : list A) :
  filter g (filter f l) = filter (fun x => f x && g x) l.
Proof.
  induction l as [|x l IH]; simpl; [reflexivity|].
  destruct (f x); simpl; [|exact IH].
  destruct (g x); now rewrite IH.
Qed.

Lemma filter_all (f : A -> bool) (l : list A) :
  (forall x, f x = true) -> filter f l = l.
Proof.
  intros H. induction l as [|x l IH]; simpl; [reflexivity|].
  now rewrite H, IH.
Qed.

End Filters.

(** ** Ordering by [scheduled_at] *)

Section OrderBy.
Import BookingRepository.

Lemma insert_by_scheduled_at_perm (b : Booking.t) (l : list Booking.t) :
  Permutation (insert_by_scheduled_at b l) (b :: l).
Proof.
  induction l as [|x l IH]; simpl; [reflexivity|].
  destruct (Booking.scheduled_at b <=? Booking.scheduled_at x).
  - reflexivity.
  - rewrite IH. apply perm_swap.
Qed.

Lemma order_by_scheduled_at_perm (l : list Booking.t) :
  Permutation (order_by_scheduled_at l) l.
Proof.
  induction l as [|x l IH]; simpl; [reflexivity|].
  rewrite insert_by_scheduled_at_perm. now constructor.
Qed.

Lemma insert_by_scheduled_at_hd (b x : Booking.t) (l : list Booking.t) :
  earlier x b -> HdRel earlier x l ->
  HdRel earlier x (insert_by_scheduled_at b l).
Proof.
  intros Hxb Hhd. destruct l as [|y l]; simpl.
  - now constructor.
  - destruct (Booking.scheduled_at b <=? Booking.scheduled_at y).
    + now constructor.
    + inversion Hhd; subst. now constructor.
Qed.

Lemma insert_by_scheduled_at_sorted (b : Booking.t) (l : list Booking.t) :
  Sorted earlier l -> Sorted earlier (insert_by_scheduled_at b l).
Proof.
  induction 1 as [|x l Hs IH Hhd]; simpl.
  - repeat constructor.
  - destruct (Booking.scheduled_at b <=? Booking.scheduled_at x) eqn:E.
    + constructor; [now constructor|].
      constructor. unfold earlier. lia.
    + constructor; [exact IH|].
      apply insert_by_scheduled_at_hd; [unfold earlier; lia | exact Hhd].
Qed.

(** The rows come back in ascending order of [scheduled_at]. *)
Lemma order_by_scheduled_at_sorted (l : list Booking.t) :
  Sorted earlier (order_by_scheduled_at l).
Proof.
  induction l as [|x l IH]; simpl; [constructor|].
  now apply insert_by_scheduled_at_sorted.
Qed.

End OrderBy.

(** ** Outcomes of the repositories *)

Section Monad.
Context {A B : Type}.

Lemma bind_ret (a : A) (k : A -> M B) (w : World) :
  bind (ret a) k w = k a w.
Proof. reflexivity. Qed.

Lemma bind_raise (e : exn) (k : A -> M B) (w : World) :
  bind (raise e) k w = Raise e w.
Proof. reflexivity. Qed.

Lemma bind_query (f : DB -> A) (k : A -> M B) (w : World) :
  bind (query f) k w = k (f (db w)) w.
Proof. reflexivity. Qed.

Lemma bind_utcnow (k : datetime -> M B) (w : World) :
  bind utcnow k w = k (now w) (tick w).
Proof. reflexivity. Qed.

Lemma bind_commit (f : DB -> DB) (k : unit -> M B) (w : World) :
  bind (commit f) k w = k tt (mkWorld (f (db w)) (clock w) (reads w)).
Proof. reflexivity. Qed.

End Monad.

Ltac run_request :=
  unfold bind, ret, raise, query, commit, utcnow; simpl.

Lemma booking_create_inv (data : BookingCreate.t) (w w' : World)
    (b : Booking.t) :
  BookingRepository.create data w = Return b w' ->
  Booking.status b = BookingStatus.PENDING
  /\ Booking.provider_id b = BookingCreate.provider_id data
  /\ Booking.scheduled_at b = BookingCreate.scheduled_at data
  /\ bookings (db w') = bookings (db w) ++ [b]
  /\ providers (db w') = providers (db w).
Proof.
  unfold BookingRepository.create. run_request.
  destruct (existsb _ _); [|discriminate].
  intros H. injection H as <- <-. simpl. repeat split.
Qed.

Lemma booking_create_returns (data : BookingCreate.t) (w : World)
    (p : Provider.t) :
  find_provider (BookingCreate.provider_id data) (db w) = Some p ->
  exists b w', BookingRepository.create data w = Return b w'.
Proof.
  intros Hfind. unfold BookingRepository.create. run_request.
  replace (existsb _ _) with true; [eauto|].
  symmetry. apply existsb_exists. exists p.
  apply find_some in Hfind. exact Hfind.
Qed.

(** The three checks of [create_booking], in the order the code makes them,
    with the outcome of each. *)
Lemma create_booking_checks_in_order (data : BookingCreate.t) (w : World) :
  match find_provider (BookingCreate.provider_id data) (db w) with
  | None =>
      BookingService.create_booking data w
      = Raise (ValueError ("Provider with ID "
                           ++ str_of_int (BookingCreate.provider_id data)
                           ++ " not found")) w
  | Some p =>
      if negb (Provider.is_active p) then
        BookingService.create_booking data w
        = Raise (ValueError
                   "Provider is not active and cannot accept bookings") w
      else if BookingCreate.scheduled_at data <? now w then
        exists w',
          BookingService.create_booking data w
          = Raise (ValueError "Scheduled time must be in the future") w'
          /\ db w' = db w
      else
        exists b w',
          BookingService.create_booking data w = Return b w'
          /\ bookings (db w') = bookings (db w) ++ [b]
          /\ providers (db w') = providers (db w)
  end.
Proof.
  unfold BookingService.create_booking, ProviderRepository.get_by_id,
    find_provider.
  rewrite bind_query.
  destruct (find _ (providers (db w))) as [p|] eqn:Hfind; [|reflexivity].
  destruct (negb (Provider.is_active p)); [reflexivity|].
  rewrite bind_utcnow.
  destruct (BookingCreate.scheduled_at data <? now w).
  - eexists. split; reflexivity.
  - destruct (booking_create_returns data (tick w) p Hfind) as (b & w' & Hc).
    exists b, w'. split; [exact Hc|].
    apply booking_create_inv in Hc. tauto.
Qed.

(** ** Booking creation *)

(** C1: the check on [scheduled_at] is [scheduled_at < utcnow()], so a booking
    scheduled exactly at the current instant, for an existing and active
    provider, is not refused: it is created and persisted. *)
Theorem create_booking_at_current_instant
    (data : BookingCreate.t) (w : World) (p : Provider.t) :
  find_provider (BookingCreate.provider_id data) (db w) = Some p ->
  Provider.is_active p = true ->
  BookingCreate.scheduled_at data = now w ->
  exists b w',
    BookingService.create_booking data w = Return b w'
    /\ bookings (db w') = bookings (db w) ++ [b]
    /\ Booking.scheduled_at b = now w.
Proof.
  intros Hfind Hact Hnow.
  pose proof (create_booking_checks_in_order data w) as H.
  rewrite Hfind, Hact, Hnow, Z.ltb_irrefl in H. simpl in H.
  destruct H as (b & w' & Hc & Hb & _).
  exists b, w'. repeat split; try assumption.
  unfold BookingService.create_booking, ProviderRepository.get_by_id in Hc.
  rewrite bind_query in Hc.
  fold (find_provider (BookingCreate.provider_id data) (db w)) in Hc.
  rewrite Hfind, Hact in Hc. simpl in Hc.
  rewrite bind_utcnow, Hnow, Z.ltb_irrefl in Hc.
  apply booking_create_inv in Hc. rewrite <- Hnow. tauto.
Qed.

Lemma create_booking_at_current_instant_witness :
  exists b w',
    BookingService.create_booking (Sample.john 1000002) Sample.clinic_world
    = Return b w'
    /\ bookings (db w') = bookings (db Sample.clinic_world) ++ [b]
    /\ Booking.scheduled_at b = now Sample.clinic_world.
Proof.
  refine (create_booking_at_current_instant
            (Sample.john 1000002) Sample.clinic_world _ _ _ _).
  - vm_compute. reflexivity.
  - vm_compute. reflexivity.
  - vm_compute. reflexivity.
Defined.

(** A booking scheduled before the current instant is refused and nothing is
    stored. *)
Lemma create_booking_past (data : BookingCreate.t) (w : World)
    (p : Provider.t) :
  find_provider (BookingCreate.provider_id data) (db w) = Some p ->
  Provider.is_active p = true ->
  BookingCreate.scheduled_at data < now w ->
  exists w',
    BookingService.create_booking data w
    = Raise (ValueError "Scheduled time must be in the future") w'
    /\ db w' = db w.
Proof.
  intros Hfind Hact Hlt.
  pose proof (create_booking_checks_in_order data w) as H.
  rewrite Hfind, Hact in H. simpl in H.
  apply Z.ltb_lt in Hlt. now rewrite Hlt in H.
Qed.

(** C2: a booking that is created has status pending, whatever the payload:
    the creation payload has no status, and the row appended to the table
    is the booking returned. *)
Theorem create_booking_status_pending
    (data : BookingCreate.t) (w w' : World) (b : Booking.t) :
  BookingService.create_booking data w = Return b w' ->
  Booking.status b = BookingStatus.PENDING
  /\ bookings (db w') = bookings (db w) ++ [b]
  /\ find_booking (Booking.id b) (db w')
     = match find_booking (Booking.id b) (db w) with
       | Some old => Some old
       | None => Some b
       end.
Proof.
  intros Hc.
  unfold BookingService.create_booking, ProviderRepository.get_by_id in Hc.
  rewrite bind_query in Hc.
  destruct (find _ (providers (db w))) as [p|]; [|discriminate].
  destruct (negb (Provider.is_active p)); [discriminate|].
  rewrite bind_utcnow in Hc.
  destruct (BookingCreate.scheduled_at data <? now w); [discriminate|].
  apply booking_create_inv in Hc.
  destruct Hc as (Hs & _ & _ & Hb & _).
  change (db (tick w)) with (db w) in Hb.
  repeat split; try assumption.
  unfold find_booking. rewrite Hb.
  rewrite (find_appended Booking.id).
  destruct (find _ (bookings (db w))); [reflexivity|].
  simpl. now rewrite Z.eqb_refl.
Qed.

Lemma create_booking_status_pending_witness :
  Booking.status Sample.pending_booking = BookingStatus.PENDING
  /\ bookings (db Sample.booked_world)
     = bookings (db Sample.clinic_world)
       ++ [Sample.pending_booking]
  /\ find_booking 1 (db Sample.booked_world)
     = match find_booking 1 (db Sample.clinic_world) with
       | Some old => Some old
       | None => Some Sample.pending_booking
       end.
Proof.
  refine (create_booking_status_pending
            (Sample.john 604800000000) Sample.clinic_world
            Sample.booked_world _ _).
  vm_compute. reflexivity.
Defined.

(** C5: the checks are made in the order provider found, provider active,
    time; but the third one lets the current instant through. With the
    clinic registered and active and [scheduled_at] equal to the instant the
    clock gives, [scheduled_at] is not later than that instant and yet the
    booking is stored. *)
Theorem create_booking_persists_at_boundary :
  let data := Sample.john (now Sample.clinic_world) in
  ~ (now Sample.clinic_world < BookingCreate.scheduled_at data)
  /\ bookings (db Sample.clinic_world) = []
  /\ exists b w',
       BookingService.create_booking data Sample.clinic_world = Return b w'
       /\ bookings (db w') = [b]
       /\ Booking.scheduled_at b = now Sample.clinic_world.
Proof.
  split; [|split].
  - vm_compute. intros H. discriminate H.
  - vm_compute. reflexivity.
  - eexists. eexists. split; [vm_compute; reflexivity|].
    split; vm_compute; reflexivity.
Qed.

(** ** Provider registration *)

Lemma provider_create_returns (data : ProviderCreate.t) (w : World) :
  exists p w',
    ProviderRepository.create data w = Return p w'
    /\ providers (db w') = providers (db w) ++ [p]
    /\ bookings (db w') = bookings (db w)
    /\ Provider.name p = ProviderCreate.name data
    /\ Provider.sector p = ProviderCreate.sector data.
Proof.
  unfold ProviderRepository.create.
  rewrite !bind_utcnow, bind_query, bind_commit.
  eexists. eexists. split; [reflexivity|]. simpl. repeat split.
Qed.

(** C9: registration with a name or a sector that is empty or made of
    whitespace only raises a [ValueError] and leaves the world as it was;
    any other registration is the repository's [create], which appends the
    provider to the table. *)
Theorem register_provider_rejects_blank
    (data : ProviderCreate.t) (w : World) :
  if whitespace_only (ProviderCreate.name data)
     || whitespace_only (ProviderCreate.sector data)
  then exists msg,
         ProviderService.register_provider data w = Raise (ValueError msg) w
  else ProviderService.register_provider data w
       = ProviderRepository.create data w
       /\ exists p w',
            ProviderService.register_provider data w = Return p w'
            /\ providers (db w') = providers (db w) ++ [p].
Proof.
  unfold ProviderService.register_provider.
  rewrite !truthy_strip, !negb_involutive.
  destruct (whitespace_only (ProviderCreate.name data)); simpl.
  - eexists. reflexivity.
  - destruct (whitespace_only (ProviderCreate.sector data)).
    + eexists. reflexivity.
    + split; [reflexivity|].
      destruct (provider_create_returns data w) as (p & w' & Hc & Hp & _).
      now exists p, w'.
Qed.

(** ** Deletion *)

Lemma booking_delete_missing (i : Z) (w : World) :
  find_booking i (db w) = None ->
  BookingRepository.delete i w = Return false w.
Proof.
  intros Hfind.
  unfold BookingRepository.delete, BookingRepository.get_by_id.
  rewrite bind_query. fold (find_booking i (db w)). now rewrite Hfind.
Qed.

Lemma booking_delete_found (i : Z) (w : World) (b : Booking.t) :
  find_booking i (db w) = Some b ->
  BookingRepository.delete i w
  = Return true
      (mkWorld (mkDB (providers (db w)) (other_bookings i (db w))
                     (providers_id_seq (db w)) (bookings_id_seq (db w)))
               (clock w) (reads w)).
Proof.
  intros Hfind.
  unfold BookingRepository.delete, BookingRepository.get_by_id.
  rewrite bind_query. fold (find_booking i (db w)). rewrite Hfind.
  apply (find_key Booking.id) in Hfind. destruct Hfind as [-> _].
  reflexivity.
Qed.

Lemma provider_delete_missing (i : Z) (w : World) :
  find_provider i (db w) = None ->
  ProviderRepository.delete i w = Return false w.
Proof.
  intros Hfind.
  unfold ProviderRepository.delete, ProviderRepository.get_by_id.
  rewrite bind_query. fold (find_provider i (db w)). now rewrite Hfind.
Qed.

Lemma provider_delete_found (i : Z) (w : World) (p : Provider.t) :
  find_provider i (db w) = Some p ->
  ProviderRepository.delete i w
  = if existsb (fun b => Booking.provider_id b =? i) (bookings (db w))
    then Raise IntegrityError w
    else Return true
           (mkWorld (mkDB (other_providers i (db w)) (bookings (db w))
                          (providers_id_seq (db w)) (bookings_id_seq (db w)))
                    (clock w) (reads w)).
Proof.
  intros Hfind.
  unfold ProviderRepository.delete, ProviderRepository.get_by_id.
  rewrite bind_query. fold (find_provider i (db w)). rewrite Hfind.
  apply (find_key Provider.id) in Hfind. destruct Hfind as [-> _].
  rewrite bind_query.
  now destruct (existsb _ _).
Qed.

(** C8: deleting an id that is not in the table raises the not-found
    [ValueError] and leaves the world as it was, for bookings and for
    providers; the repository's [delete] answers [false] there, and answers
    [true] when the row was found, in which case the row is gone and the
    other rows stay. A provider that bookings still reference is not
    removed: the commit fails. *)
Theorem delete_missing_is_not_found (i : Z) (w : World) :
  match find_booking i (db w) with
  | None =>
      BookingRepository.delete i w = Return false w
      /\ BookingService.delete_booking i w
         = Raise (BookingService.not_found i) w
  | Some _ =>
      exists w',
        BookingRepository.delete i w = Return true w'
        /\ BookingService.delete_booking i w = Return true w'
        /\ find_booking i (db w') = None
        /\ bookings (db w') = other_bookings i (db w)
        /\ providers (db w') = providers (db w)
  end
  /\
  match find_provider i (db w) with
  | None =>
      ProviderRepository.delete i w = Return false w
      /\ ProviderService.delete_provider i w
         = Raise (ProviderService.not_found i) w
  | Some _ =>
      if existsb (fun b => Booking.provider_id b =? i) (bookings (db w))
      then ProviderRepository.delete i w = Raise IntegrityError w
           /\ ProviderService.delete_provider i w = Raise IntegrityError w
      else exists w',
        ProviderRepository.delete i w = Return true w'
        /\ ProviderService.delete_provider i w = Return true w'
        /\ find_provider i (db w') = None
        /\ providers (db w') = other_providers i (db w)
        /\ bookings (db w') = bookings (db w)
  end.
Proof.
  split.
  - unfold BookingService.delete_booking, bind.
    destruct (find_booking i (db w)) as [b|] eqn:Hfind.
    + rewrite (booking_delete_found i w b Hfind).
      eexists. repeat split.
      apply (find_removed Booking.id).
    + rewrite (booking_delete_missing i w Hfind). now split.
  - unfold ProviderService.delete_provider, bind.
    destruct (find_provider i (db w)) as [p|] eqn:Hfind.
    + rewrite (provider_delete_found i w p Hfind).
      destruct (existsb _ _); [now split|].
      eexists. repeat split.
      apply (find_removed Provider.id).
    + rewrite (provider_delete_missing i w Hfind). now split.
Qed.

(** ** Partial update *)

Lemma booking_setattrs_frame (b c : Booking.t) (data : BookingUpdate.t) :
  BookingRepository.setattrs b data = Some c ->
  booking_frame data b c /\ Booking.updated_at c = Booking.updated_at b.
Proof.
  unfold BookingRepository.setattrs, booking_frame, kept.
  destruct (set_required (Booking.client_name b) _) as [n|] eqn:En;
    [|discriminate].
  destruct (set_required (Booking.client_phone b) _) as [ph|] eqn:Ep;
    [|discriminate].
  destruct (set_required (Booking.scheduled_at b) _) as [s|] eqn:Es;
    [|discriminate].
  destruct (set_required (Booking.status b) _) as [st|] eqn:Est;
    [|discriminate].
  intros [= <-]. simpl.
  repeat split; intros Hu;
    try (rewrite Hu in *; simpl in *; congruence).
Qed.

Lemma provider_setattrs_frame (p c : Provider.t) (data : ProviderUpdate.t) :
  ProviderRepository.setattrs p data = Some c ->
  provider_frame data p c /\ Provider.updated_at c = Provider.updated_at p.
Proof.
  unfold ProviderRepository.setattrs, provider_frame, kept.
  destruct (set_required (Provider.name p) _) as [n|] eqn:En;
    [|discriminate].
  destruct (set_required (Provider.sector p) _) as [s|] eqn:Es;
    [|discriminate].
  destruct (set_required (Provider.is_active p) _) as [a|] eqn:Ea;
    [|discriminate].
  intros [= <-]. simpl.
  repeat split; intros Hu;
    try (rewrite Hu in *; simpl in *; congruence).
Qed.

Lemma booking_update_missing (i : Z) (data : BookingUpdate.t) (w : World) :
  find_booking i (db w) = None ->
  BookingRepository.update i data w = Return None w.
Proof.
  intros Hfind.
  unfold BookingRepository.update, BookingRepository.get_by_id.
  rewrite bind_query. fold (find_booking i (db w)). now rewrite Hfind.
Qed.

Lemma booking_update_found (i : Z) (data : BookingUpdate.t) (w : World)
    (b : Booking.t) :
  find_booking i (db w) = Some b ->
  BookingRepository.update i data w
  = match BookingRepository.setattrs b data with
    | None => Raise IntegrityError w
    | Some changed =>
        if Booking.eq_dec changed b then Return (Some b) w
        else
          let row := Booking.set_updated_at changed (now w) in
          Return (Some row)
            (mkWorld (mkDB (providers (db w))
                           (BookingRepository.replace_row row
                              (bookings (db w)))
                           (providers_id_seq (db w)) (bookings_id_seq (db w)))
                     (clock w) (S (reads w)))
    end.
Proof.
  intros Hfind.
  unfold BookingRepository.update, BookingRepository.get_by_id.
  rewrite bind_query. fold (find_booking i (db w)). rewrite Hfind.
  destruct (BookingRepository.setattrs b data) as [c|]; [|reflexivity].
  now destruct (Booking.eq_dec c b).
Qed.

Lemma provider_update_missing (i : Z) (data : ProviderUpdate.t) (w : World) :
  find_provider i (db w) = None ->
  ProviderRepository.update i data w = Return None w.
Proof.
  intros Hfind.
  unfold ProviderRepository.update, ProviderRepository.get_by_id.
  rewrite bind_query. fold (find_provider i (db w)). now rewrite Hfind.
Qed.

Lemma provider_update_found (i : Z) (data : ProviderUpdate.t) (w : World)
    (p : Provider.t) :
  find_provider i (db w) = Some p ->
  ProviderRepository.update i data w
  = match ProviderRepository.setattrs p data with
    | None => Raise IntegrityError w
    | Some changed =>
        if Provider.eq_dec changed p then Return (Some p) w
        else
          let row := Provider.set_updated_at changed (now w) in
          Return (Some row)
            (mkWorld (mkDB (ProviderRepository.replace_row row
                              (providers (db w)))
                           (bookings (db w))
                           (providers_id_seq (db w)) (bookings_id_seq (db w)))
                     (clock w) (S (reads w)))
    end.
Proof.
  intros Hfind.
  unfold ProviderRepository.update, ProviderRepository.get_by_id.
  rewrite bind_query. fold (find_provider i (db w)). rewrite Hfind.
  destruct (ProviderRepository.setattrs p data) as [c|]; [|reflexivity].
  now destruct (Provider.eq_dec c p).
Qed.

Lemma booking_frame_set_updated_at (data : BookingUpdate.t)
    (b c : Booking.t) (t : datetime) :
  booking_frame data b c -> booking_frame data b (Booking.set_updated_at c t).
Proof. unfold booking_frame. now destruct c. Qed.

Lemma provider_frame_set_updated_at (data : ProviderUpdate.t)
    (p c : Provider.t) (t : datetime) :
  provider_frame data p c ->
  provider_frame data p (Provider.set_updated_at c t).
Proof. unfold provider_frame. now destruct c. Qed.

(** What a successful update of a booking does to the row and the store. *)
Lemma booking_update_inv (i : Z) (data : BookingUpdate.t) (w w' : World)
    (b' : Booking.t) :
  BookingRepository.update i data w = Return (Some b') w' ->
  exists b,
    find_booking i (db w) = Some b
    /\ booking_frame data b b'
    /\ find_booking i (db w') = Some b'
    /\ other_bookings i (db w') = other_bookings i (db w)
    /\ providers (db w') = providers (db w).
Proof.
  intros Hu.
  destruct (find_booking i (db w)) as [b|] eqn:Hfind.
  - exists b. split; [reflexivity|].
    rewrite (booking_update_found i data w b Hfind) in Hu.
    destruct (BookingRepository.setattrs b data) as [c|] eqn:Hs;
      [|discriminate].
    apply booking_setattrs_frame in Hs. destruct Hs as [Hfr _].
    pose proof Hfind as Hk.
    apply (find_key Booking.id) in Hk. destruct Hk as [Hid _].
    destruct (Booking.eq_dec c b) as [->|_].
    + injection Hu as <- <-. repeat split; assumption.
    + cbv zeta in Hu. injection Hu as <- <-.
      assert (Hrow : Booking.id (Booking.set_updated_at c (now w)) = i).
      { simpl. destruct Hfr as [Hc _]. congruence. }
      split; [now apply booking_frame_set_updated_at|].
      unfold find_booking, other_bookings; simpl.
      split; [|split; [|reflexivity]].
      * apply (find_replaced Booking.id i _ b); assumption.
      * apply (others_replaced Booking.id i); assumption.
  - rewrite (booking_update_missing i data w Hfind) in Hu. discriminate.
Qed.

Lemma provider_update_inv (i : Z) (data : ProviderUpdate.t) (w w' : World)
    (p' : Provider.t) :
  ProviderRepository.update i data w = Return (Some p') w' ->
  exists p,
    find_provider i (db w) = Some p
    /\ provider_frame data p p'
    /\ find_provider i (db w') = Some p'
    /\ other_providers i (db w') = other_providers i (db w)
    /\ bookings (db w') = bookings (db w).
Proof.
  intros Hu.
  destruct (find_provider i (db w)) as [p|] eqn:Hfind.
  - exists p. split; [reflexivity|].
    rewrite (provider_update_found i data w p Hfind) in Hu.
    destruct (ProviderRepository.setattrs p data) as [c|] eqn:Hs;
      [|discriminate].
    apply provider_setattrs_frame in Hs. destruct Hs as [Hfr _].
    pose proof Hfind as Hk.
    apply (find_key Provider.id) in Hk. destruct Hk as [Hid _].
    destruct (Provider.eq_dec c p) as [->|_].
    + injection Hu as <- <-. repeat split; assumption.
    + cbv zeta in Hu. injection Hu as <- <-.
      assert (Hrow : Provider.id (Provider.set_updated_at c (now w)) = i).
      { simpl. destruct Hfr as [Hc _]. congruence. }
      split; [now apply provider_frame_set_updated_at|].
      unfold find_provider, other_providers; simpl.
      split; [|split; [|reflexivity]].
      * apply (find_replaced Provider.id i _ p); assumption.
      * apply (others_replaced Provider.id i); assumption.
  - rewrite (provider_update_missing i data w Hfind) in Hu. discriminate.
Qed.

(** C4: on an existing record, booking or provider, and for every payload,
    an update either succeeds, and then every column whose field the payload
    does not set is as it was, as are the id, the provider reference and
    [created_at], the row stored under the id is the one returned and the
    other rows and the other table are untouched; or it raises (a column
    that is not nullable was set to null) and the world is as it was.
    ([updated_at] is managed by the server: see below.) *)
Theorem update_keeps_absent_fields :
  (forall (i : Z) (data : BookingUpdate.t) (w : World) (b : Booking.t),
      find_booking i (db w) = Some b ->
      match BookingRepository.update i data w with
      | Return (Some b') w' =>
          booking_frame data b b'
          /\ find_booking i (db w') = Some b'
          /\ other_bookings i (db w') = other_bookings i (db w)
          /\ providers (db w') = providers (db w)
      | Return None _ => False
      | Raise _ w' => w' = w
      end)
  /\
  (forall (i : Z) (data : ProviderUpdate.t) (w : World) (p : Provider.t),
      find_provider i (db w) = Some p ->
      match ProviderRepository.update i data w with
      | Return (Some p') w' =>
          provider_frame data p p'
          /\ find_provider i (db w') = Some p'
          /\ other_providers i (db w') = other_providers i (db w)
          /\ bookings (db w') = bookings (db w)
      | Return None _ => False
      | Raise _ w' => w' = w
      end).
Proof.
  split.
  - intros i data w b Hfind.
    destruct (BookingRepository.update i data w) as [[b'|] w'|e w'] eqn:Hu.
    + apply booking_update_inv in Hu.
      destruct Hu as (b0 & Hb0 & Hfr & Hst & Hoth & Hp).
      rewrite Hfind in Hb0. injection Hb0 as <-. tauto.
    + rewrite (booking_update_found i data w b Hfind) in Hu.
      destruct (BookingRepository.setattrs b data) as [c|]; [|discriminate].
      destruct (Booking.eq_dec c b); discriminate.
    + rewrite (booking_update_found i data w b Hfind) in Hu.
      destruct (BookingRepository.setattrs b data) as [c|];
        [|now injection Hu].
      destruct (Booking.eq_dec c b); discriminate.
  - intros i data w p Hfind.
    destruct (ProviderRepository.update i data w) as [[p'|] w'|e w'] eqn:Hu.
    + apply provider_update_inv in Hu.
      destruct Hu as (p0 & Hp0 & Hfr & Hst & Hoth & Hb).
      rewrite Hfind in Hp0. injection Hp0 as <-. tauto.
    + rewrite (provider_update_found i data w p Hfind) in Hu.
      destruct (ProviderRepository.setattrs p data) as [c|]; [|discriminate].
      destruct (Provider.eq_dec c p); discriminate.
    + rewrite (provider_update_found i data w p Hfind) in Hu.
      destruct (ProviderRepository.setattrs p data) as [c|];
        [|now injection Hu].
      destruct (Provider.eq_dec c p); discriminate.
Qed.

Lemma update_keeps_absent_fields_witness :
  match BookingRepository.update 1 Sample.confirm Sample.booked_world with
  | Return (Some b') w' =>
      booking_frame Sample.confirm Sample.pending_booking b'
      /\ find_booking 1 (db w') = Some b'
      /\ other_bookings 1 (db w') = other_bookings 1 (db Sample.booked_world)
      /\ providers (db w') = providers (db Sample.booked_world)
  | Return None _ => False
  | Raise _ w' => w' = Sample.booked_world
  end.
Proof.
  refine (proj1 update_keeps_absent_fields 1 Sample.confirm
            Sample.booked_world Sample.pending_booking _).
  vm_compute. reflexivity.
Defined.

(** ** The server-managed [updated_at] *)

(** C7, as stated, fails: an update with an empty payload succeeds and
    leaves [updated_at] where it was, although the clock has moved on. *)
Lemma empty_update_keeps_updated_at :
  exists b b' w',
    find_booking 1 (db Sample.booked_world) = Some b
    /\ BookingRepository.update 1 BookingUpdate.empty Sample.booked_world
       = Return (Some b') w'
    /\ Booking.updated_at b < now Sample.booked_world
    /\ ~ (Booking.updated_at b < Booking.updated_at b').
Proof.
  do 3 eexists. split; [vm_compute; reflexivity|].
  split; [vm_compute; reflexivity|].
  split; vm_compute; [reflexivity | discriminate].
Qed.

(** ** Cancellation *)

Lemma update_booking_missing (i : Z) (data : BookingUpdate.t) (w : World) :
  find_booking i (db w) = None ->
  BookingService.update_booking i data w
  = Raise (BookingService.not_found i) w.
Proof.
  intros Hfind. unfold BookingService.update_booking, bind.
  now rewrite (booking_update_missing i data w Hfind).
Qed.

Lemma cancel_setattrs (b : Booking.t) :
  BookingRepository.setattrs b
    (BookingUpdate.mk Unset Unset Unset Unset Unset
       (Provided (Some BookingStatus.CANCELLED)) Unset)
  = Some (Booking.mk (Booking.id b) (Booking.provider_id b)
            (Booking.client_name b) (Booking.client_phone b)
            (Booking.client_email b) (Booking.service_type b)
            (Booking.scheduled_at b) BookingStatus.CANCELLED
            (Booking.notes b) (Booking.created_at b) (Booking.updated_at b)).
Proof. reflexivity. Qed.

Lemma cancel_setattrs_cancelled (b : Booking.t) :
  Booking.status b = BookingStatus.CANCELLED ->
  BookingRepository.setattrs b
    (BookingUpdate.mk Unset Unset Unset Unset Unset
       (Provided (Some BookingStatus.CANCELLED)) Unset)
  = Some b.
Proof. intros H. rewrite cancel_setattrs, <- H. now destruct b. Qed.

(** Cancelling a booking that is stored as cancelled changes nothing. *)
Lemma cancel_booking_cancelled (i : Z) (w : World) (b : Booking.t) :
  find_booking i (db w) = Some b ->
  Booking.status b = BookingStatus.CANCELLED ->
  BookingService.cancel_booking i w = Return b w.
Proof.
  intros Hfind Hst.
  unfold BookingService.cancel_booking, BookingService.update_booking, bind.
  rewrite (booking_update_found i _ w b Hfind).
  rewrite (cancel_setattrs_cancelled b Hst).
  destruct (Booking.eq_dec b b) as [_|Hne]; [reflexivity | now elim Hne].
Qed.

(** C6: [cancel_booking] is [update_booking] with the payload that sets
    only [status], to cancelled. On an id that is not stored it raises the
    not-found error of the update. On a stored booking, whatever its status,
    it returns the booking with status cancelled and every other column set
    by a payload as it was, the returned row being the stored one; the
    stamp is that of the update (refreshed when the status changed, kept
    when the booking was cancelled already); and cancelling again returns
    the same booking and leaves the same world. *)
Theorem cancel_booking_is_update_to_cancelled (i : Z) (w : World) :
  let cancelled :=
    BookingUpdate.mk Unset Unset Unset Unset Unset
      (Provided (Some BookingStatus.CANCELLED)) Unset in
  BookingService.cancel_booking i w
  = BookingService.update_booking i cancelled w
  /\ match find_booking i (db w) with
     | None =>
         BookingService.cancel_booking i w
         = Raise (BookingService.not_found i) w
     | Some b =>
         exists b' w',
           BookingService.cancel_booking i w = Return b' w'
           /\ Booking.status b' = BookingStatus.CANCELLED
           /\ booking_frame cancelled b b'
           /\ find_booking i (db w') = Some b'
           /\ Booking.updated_at b'
              = (if BookingStatus.eqb (Booking.status b)
                      BookingStatus.CANCELLED
                 then Booking.updated_at b else now w)
           /\ BookingService.cancel_booking i w' = Return b' w'
     end.
Proof.
  intros cancelled. split; [reflexivity|].
  destruct (find_booking i (db w)) as [b|] eqn:Hfind.
  - destruct (BookingService.cancel_booking i w) as [b' w'|e w'] eqn:Hc.
    + exists b', w'. split; [reflexivity|].
      unfold BookingService.cancel_booking, BookingService.update_booking,
        bind in Hc.
      fold cancelled in Hc.
      destruct (BookingRepository.update i cancelled w) as [[r|] w1|e w1]
        eqn:Hu; try discriminate.
      injection Hc as -> ->.
      pose proof Hu as Hinv. apply booking_update_inv in Hinv.
      destruct Hinv as (b0 & Hb0 & Hfr & Hst' & _).
      rewrite Hfind in Hb0. injection Hb0 as <-.
      rewrite (booking_update_found i cancelled w b Hfind) in Hu.
      unfold cancelled in Hu. rewrite cancel_setattrs in Hu.
      unfold BookingStatus.eqb.
      destruct (Booking.eq_dec _ b) as [E|Hne].
      * injection Hu as <- <-.
        assert (Hs : Booking.status b = BookingStatus.CANCELLED)
          by (rewrite <- E at 1; reflexivity).
        rewrite Hs.
        split; [reflexivity|]. split; [exact Hfr|]. split; [exact Hst'|].
        split; [reflexivity|].
        now apply cancel_booking_cancelled.
      * cbv zeta in Hu. injection Hu as <- <-. simpl.
        destruct (BookingStatus.eq_dec (Booking.status b)
                    BookingStatus.CANCELLED) as [Hs|_].
        { elim Hne. rewrite <- Hs. now destruct b. }
        split; [reflexivity|]. split; [exact Hfr|]. split; [exact Hst'|].
        split; [reflexivity|].
        apply cancel_booking_cancelled; [exact Hst' | reflexivity].
    + unfold BookingService.cancel_booking, BookingService.update_booking,
        bind in Hc.
      rewrite (booking_update_found i _ w b Hfind), cancel_setattrs in Hc.
      destruct (Booking.eq_dec _ b); discriminate.
  - now apply update_booking_missing.
Qed.

(** ** Listing bookings *)

Lemma status_truthy (s : BookingStatus.t) : BookingStatus.truthy s = true.
Proof. now destruct s. Qed.

Lemma filter_if_supplied {A} (truthy : A -> bool) (arg : option A)
    (cond : A -> Booking.t -> bool) (q : list Booking.t) :
  (forall x, arg = Some x -> truthy x = true) ->
  BookingRepository.filter_if truthy arg cond q
  = filter (fun b => ListAllSpec.supplied arg (fun x => cond x b)) q.
Proof.
  intros Ht. destruct arg as [x|]; simpl.
  - now rewrite (Ht x eq_refl).
  - symmetry. now apply filter_all.
Qed.

(** Unless the provider filter is 0, [list_all] returns what the
    specification says. *)
Lemma list_all_meets_spec (skip limit : nat) (provider_id : option Z)
    (status : option BookingStatus.t) (from_date to_date : option datetime)
    (w : World) :
  provider_id <> Some 0 ->
  BookingRepository.list_all skip limit provider_id status from_date to_date w
  = Return (ListAllSpec.list_all skip limit provider_id status from_date
              to_date (db w)) w.
Proof.
  intros Hp.
  unfold BookingRepository.list_all, query, ListAllSpec.list_all.
  f_equal. do 3 f_equal.
  rewrite !filter_if_supplied;
    try (intros; reflexivity);
    try (intros s _; apply status_truthy);
    try (intros x ->; unfold truthy_int; apply negb_true_iff, Z.eqb_neq;
         congruence).
  rewrite !filter_filter. apply filter_ext. intros b.
  unfold ListAllSpec.matches.
  destruct provider_id, status, from_date, to_date; simpl;
    rewrite ?Z.geb_leb, ?andb_true_r, ?andb_assoc; reflexivity.
Qed.

Section SortedSlices.
Context {A : Type} (R : A -> A -> Prop).

Lemma Sorted_skipn (n : nat) (l : list A) : Sorted R l -> Sorted R (skipn n l).
Proof.
  revert l. induction n as [|n IH]; intros l Hs; [exact Hs|].
  destruct l as [|x l]; [exact Hs|]. simpl. apply IH.
  now inversion Hs.
Qed.

Lemma Sorted_firstn (n : nat) (l : list A) :
  Sorted R l -> Sorted R (firstn n l).
Proof.
  revert l. induction n as [|n IH]; intros l Hs; [constructor|].
  destruct l as [|x l]; [constructor|]. simpl.
  inversion Hs as [|? ? Hs' Hhd]; subst.
  constructor; [now apply IH|].
  destruct n; [constructor|].
  destruct l as [|y l]; [constructor|]. simpl.
  inversion Hhd; subst. now constructor.
Qed.

End SortedSlices.

(** Whatever the filters, the rows [list_all] returns are in ascending
    order of [scheduled_at] and are rows of the table. *)
Lemma list_all_sorted (skip limit : nat) (provider_id : option Z)
    (status : option BookingStatus.t) (from_date to_date : option datetime)
    (w : World) :
  exists rows,
    BookingRepository.list_all skip limit provider_id status from_date
      to_date w = Return rows w
    /\ Sorted earlier rows.
Proof.
  eexists. split; [reflexivity|].
  apply Sorted_firstn, Sorted_skipn, order_by_scheduled_at_sorted.
Qed.

(** C3: [if provider_id:] takes the filter value 0 for no filter. With
    0 as the provider filter [list_all] answers as it does without one:
    on the store holding the booking for provider 1 it returns that booking,
    where the conjunction of the supplied filters selects no row. *)
Theorem list_all_ignores_provider_zero :
  (forall (skip limit : nat) (status : option BookingStatus.t)
          (from_date to_date : option datetime) (w : World),
      BookingRepository.list_all skip limit (Some 0) status from_date to_date w
      = BookingRepository.list_all skip limit None status from_date to_date w)
  /\ BookingRepository.list_all 0 100 (Some 0) None None None
       Sample.booked_world
     = Return [Sample.pending_booking] Sample.booked_world
  /\ ListAllSpec.list_all 0 100 (Some 0) None None None
       (db Sample.booked_world)
     = [].
Proof.
  split; [|split].
  - intros. reflexivity.
  - vm_compute. reflexivity.
  - vm_compute. reflexivity.
Qed.

(** ** Content of name and sector *)

Lemma provider_ok_set_updated_at (p : Provider.t) (t : datetime) :
  provider_ok p -> provider_ok (Provider.set_updated_at p t).
Proof. unfold provider_ok. now destruct p. Qed.

Lemma set_required_content (old v : str) (f : field (option str)) :
  has_content old -> field_has_content f ->
  set_required old f = Some v -> has_content v.
Proof.
  intros Hold Hf. destruct f as [|[s|]]; simpl; intros [= <-]; assumption.
Qed.

Lemma provider_setattrs_content (p c : Provider.t) (data : ProviderUpdate.t) :
  provider_ok p ->
  field_has_content (ProviderUpdate.name data) ->
  field_has_content (ProviderUpdate.sector data) ->
  ProviderRepository.setattrs p data = Some c -> provider_ok c.
Proof.
  intros [Hn Hs] Hfn Hfs. unfold ProviderRepository.setattrs.
  destruct (set_required (Provider.name p) _) as [n|] eqn:En;
    [|discriminate].
  destruct (set_required (Provider.sector p) _) as [s|] eqn:Es;
    [|discriminate].
  destruct (set_required (Provider.is_active p) _) as [a|];
    [|discriminate].
  intros [= <-]. split; simpl.
  - exact (set_required_content _ _ _ Hn Hfn En).
  - exact (set_required_content _ _ _ Hs Hfs Es).
Qed.

Lemma Forall_replace_row (row : Provider.t) (rows : list Provider.t) :
  provider_ok row -> Forall provider_ok rows ->
  Forall provider_ok (ProviderRepository.replace_row row rows).
Proof.
  intros Hrow Hrows. unfold ProviderRepository.replace_row.
  apply Forall_map. apply Forall_impl with (2 := Hrows).
  intros p Hp. now destruct (Provider.id p =? Provider.id row).
Qed.

Lemma Forall_filter_ok (f : Provider.t -> bool) (rows : list Provider.t) :
  Forall provider_ok rows -> Forall provider_ok (filter f rows).
Proof.
  intros H. apply Forall_forall. intros p Hin.
  apply filter_In in Hin. destruct Hin as [Hin _].
  rewrite Forall_forall in H. now apply H.
Qed.

Lemma update_booking_providers (i : Z) (data : BookingUpdate.t) (w : World) :
  providers (db_of (BookingService.update_booking i data w))
  = providers (db w).
Proof.
  unfold BookingService.update_booking, bind, db_of.
  destruct (find_booking i (db w)) as [b|] eqn:Hfind.
  - rewrite (booking_update_found i data w b Hfind).
    destruct (BookingRepository.setattrs b data) as [c|]; [|reflexivity].
    now destruct (Booking.eq_dec c b).
  - now rewrite (booking_update_missing i data w Hfind).
Qed.

(** Every request keeps the invariant, an update of a provider doing so
    when the name and the sector it sets have content. *)
Lemma handle_keeps_content (r : request) (w : World) :
  store_ok (db w) -> request_keeps_content r -> store_ok (db (handle r w)).
Proof.
  intros Hok Hr. unfold store_ok in *.
  destruct r as [data|i|skip limit sector|i data|i|data|i
                 |skip limit p s f t|i data|i|i]; simpl.
  - unfold ProviderService.register_provider.
    rewrite !truthy_strip, !negb_involutive.
    destruct (whitespace_only (ProviderCreate.name data)) eqn:En;
      [exact Hok|].
    destruct (whitespace_only (ProviderCreate.sector data)) eqn:Es;
      [exact Hok|]. cbv iota.
    destruct (provider_create_returns data w)
      as (p & w' & Hc & Hp & _ & Hn & Hs).
    rewrite Hc; simpl. rewrite Hp. apply Forall_app. split; [exact Hok|].
    constructor; [|constructor].
    split; unfold has_content; congruence.
  - unfold ProviderService.get_provider, ProviderRepository.get_by_id.
    rewrite bind_query. now destruct (find _ _).
  - exact Hok.
  - unfold ProviderService.update_provider, bind.
    destruct (find_provider i (db w)) as [p|] eqn:Hfind.
    + rewrite (provider_update_found i data w p Hfind).
      destruct (ProviderRepository.setattrs p data) as [c|] eqn:Hs;
        [|exact Hok].
      destruct (Provider.eq_dec c p); [exact Hok|].
      cbv zeta. simpl. apply Forall_replace_row; [|exact Hok].
      apply provider_ok_set_updated_at.
      destruct Hr as [Hfn Hfs].
      apply (provider_setattrs_content p c data); try assumption.
      apply find_some in Hfind. destruct Hfind as [Hin _].
      rewrite Forall_forall in Hok. now apply Hok.
    + now rewrite (provider_update_missing i data w Hfind).
  - unfold ProviderService.delete_provider, bind.
    destruct (find_provider i (db w)) as [p|] eqn:Hfind.
    + rewrite (provider_delete_found i w p Hfind).
      destruct (existsb _ _); [exact Hok|]. simpl.
      now apply Forall_filter_ok.
    + now rewrite (provider_delete_missing i w Hfind).
  - pose proof (create_booking_checks_in_order data w) as H.
    destruct (find_provider _ _) as [p|].
    + destruct (negb (Provider.is_active p)); [now rewrite H|].
      destruct (BookingCreate.scheduled_at data <? now w).
      * destruct H as (w' & -> & Hdb). simpl. now rewrite Hdb.
      * destruct H as (b & w' & -> & _ & Hp). simpl. now rewrite Hp.
    + now rewrite H.
  - unfold BookingService.get_booking, BookingRepository.get_by_id.
    rewrite bind_query. now destruct (find _ _).
  - exact Hok.
  - fold (db_of (BookingService.update_booking i data w)).
    now rewrite update_booking_providers.
  - unfold BookingService.cancel_booking.
    fold (db_of (BookingService.update_booking i
                   (BookingUpdate.mk Unset Unset Unset Unset Unset
                      (Provided (Some BookingStatus.CANCELLED)) Unset) w)).
    now rewrite update_booking_providers.
  - unfold BookingService.delete_booking, bind.
    destruct (find_booking i (db w)) as [b|] eqn:Hfind.
    + now rewrite (booking_delete_found i w b Hfind).
    + now rewrite (booking_delete_missing i w Hfind).
Qed.

(** C10, as stated, fails: the clinic registers, then an update whose
    payload passes the schema ([min_length=1]) sets its name to one space;
    the stored provider has a name of whitespace only. *)
Lemma update_provider_blank_name :
  ProviderUpdate.valid Sample.blank_name = true
  /\ store_ok (db (run [RegisterProvider Sample.city_clinic]
                       Sample.empty_world))
  /\ ~ store_ok (db (run [RegisterProvider Sample.city_clinic;
                          UpdateProvider 1 Sample.blank_name]
                         Sample.empty_world)).
Proof.
  split; [reflexivity|]. split.
  - vm_compute. constructor; [|constructor]. split; reflexivity.
  - intros H. vm_compute in H.
    inversion H as [|? ? [Hname _] _]. discriminate Hname.
Qed.

(** C10, amended: from a store whose providers all have a name and a sector
    with content, every sequence of requests leads to such a store, provided
    the updates of providers among them set no name and no sector of
    whitespace only. Registration checks the content itself. *)
Theorem provider_content_preserved (rs : list request) (w : World) :
  store_ok (db w) -> Forall request_keeps_content rs ->
  store_ok (db (run rs w)).
Proof.
  revert w. induction rs as [|r rs IH]; intros w Hok Hrs; [exact Hok|].
  inversion Hrs as [|? ? Hr Hrs']; subst. simpl.
  apply IH; [|exact Hrs'].
  now apply handle_keeps_content.
Qed.

Lemma provider_content_preserved_witness :
  store_ok (db (run [RegisterProvider Sample.city_clinic;
                     CreateBooking (Sample.john 604800000000);
                     UpdateProvider 1
                       (ProviderUpdate.mk Unset
                          (Provided (Some (Sample.text "dental")))
                          Unset Unset Unset (Provided (Some false)));
                     CancelBooking 1;
                     DeleteBooking 1;
                     DeleteProvider 1]
                    Sample.empty_world)).
Proof.
  apply provider_content_preserved.
  - constructor.
  - repeat constructor.
Defined.

(** ** The scenario of the specification *)

Example register_city_clinic :
  exists p,
    ProviderService.register_provider Sample.city_clinic Sample.empty_world
    = Return p Sample.clinic_world
    /\ Provider.id p = 1 /\ Provider.is_active p = true.
Proof. eexists. split; [vm_compute; reflexivity|]. now split. Qed.

Example book_a_week_ahead :
  BookingService.create_booking (Sample.john 604800000000) Sample.clinic_world
  = Return Sample.pending_booking Sample.booked_world.
Proof. vm_compute. reflexivity. Qed.

Example confirm_the_booking :
  exists w',
    BookingService.update_booking 1 Sample.confirm Sample.booked_world
    = Return Sample.confirmed_booking w'
    /\ Booking.updated_at Sample.pending_booking
       < Booking.updated_at Sample.confirmed_booking.
Proof. eexists. split; vm_compute; reflexivity. Qed.

Example cancel_the_booking :
  exists b w',
    BookingService.cancel_booking 1 Sample.booked_world = Return b w'
    /\ Booking.status b = BookingStatus.CANCELLED
    /\ BookingService.cancel_booking 1 w' = Return b w'.
Proof.
  do 2 eexists. split; [vm_compute; reflexivity|].
  split; vm_compute; reflexivity.
Qed.

Example book_an_hour_ago :
  BookingService.create_booking
    (Sample.john (now Sample.clinic_world - 3600000000)) Sample.clinic_world
  = Raise (ValueError "Scheduled time must be in the future")
      (tick Sample.clinic_world).
Proof. vm_compute. reflexivity. Qed.

Example book_with_unknown_provider :
  BookingService.create_booking
    (BookingCreate.mk 42 (Sample.text "John Doe") (Sample.text "+1234567890")
       None None 0 None)
    Sample.clinic_world
  = Raise (ValueError "Provider with ID 42 not found") Sample.clinic_world.
Proof. vm_compute. reflexivity. Qed.

Example delete_unknown_booking :
  BookingService.delete_booking 7 Sample.booked_world
  = Raise (ValueError "Booking with ID 7 not found") Sample.booked_world.
Proof. vm_compute. reflexivity. Qed.

Example delete_referenced_provider :
  ProviderService.delete_provider 1 Sample.booked_world
  = Raise IntegrityError Sample.booked_world.
Proof. vm_compute. reflexivity. Qed.

(** The check of the service is not covered by the schema: a name of one
    space has the minimum length and is refused all the same. *)
Example register_blank_name :
  let blank :=
    ProviderCreate.mk (Sample.text " ") (Sample.text "medical")
      None None None in
  ProviderCreate.valid blank = true
  /\ ProviderService.register_provider blank Sample.empty_world
     = Raise (ValueError "Provider name cannot be empty") Sample.empty_world.
Proof. split; vm_compute; reflexivity. Qed.

Example strip_both_ends :
  strip (Sample.text "  City Clinic ") = Sample.text "City Clinic"
  /\ strip [160; 9; 8232]%N = [].
Proof. split; vm_compute; reflexivity. Qed.

(** * Further properties *)

(** ** Every request is one transition *)

Lemma handle_step (r : request) (w : World) : step w (handle r w).
Proof.
  destruct r as [data|i|skip limit sector|i data|i|data|i
                 |skip limit p s f t|i data|i|i]; simpl.
  - unfold ProviderService.register_provider.
    destruct (negb (truthy_str (strip (ProviderCreate.name data))));
      [apply step_same|].
    destruct (negb (truthy_str (strip (ProviderCreate.sector data))));
      [apply step_same|].
    apply (step_register w data).
  - unfold ProviderService.get_provider, ProviderRepository.get_by_id.
    rewrite bind_query. destruct (find _ _); apply step_same.
  - apply step_same.
  - unfold ProviderService.update_provider, bind.
    destruct (find_provider i (db w)) as [p|] eqn:Hfind.
    + rewrite (provider_update_found i data w p Hfind).
      destruct (ProviderRepository.setattrs p data) as [c|] eqn:Hs;
        [|apply step_same].
      destruct (Provider.eq_dec c p); [apply step_same|].
      apply (step_update_provider w i data p c Hfind Hs).
    + rewrite (provider_update_missing i data w Hfind). apply step_same.
  - unfold ProviderService.delete_provider, bind.
    destruct (find_provider i (db w)) as [p|] eqn:Hfind.
    + rewrite (provider_delete_found i w p Hfind).
      destruct (existsb _ _) eqn:Hex; [apply step_same|].
      apply (step_delete_provider w i p Hfind Hex).
    + rewrite (provider_delete_missing i w Hfind). apply step_same.
  - unfold BookingService.create_booking, ProviderRepository.get_by_id.
    rewrite bind_query.
    fold (find_provider (BookingCreate.provider_id data) (db w)).
    destruct (find_provider _ _) as [p|] eqn:Hfind; [|apply step_same].
    destruct (negb (Provider.is_active p)); [apply step_same|].
    rewrite bind_utcnow.
    destruct (BookingCreate.scheduled_at data <? now w); [apply step_tick|].
    unfold BookingRepository.create.
    rewrite !bind_utcnow, bind_query.
    replace (existsb _ _) with true.
    + apply (step_book w data p Hfind).
    + symmetry. apply existsb_exists. exists p.
      apply find_some in Hfind. exact Hfind.
  - unfold BookingService.get_booking, BookingRepository.get_by_id.
    rewrite bind_query. destruct (find _ _); apply step_same.
  - apply step_same.
  - unfold BookingService.update_booking, bind.
    destruct (find_booking i (db w)) as [b|] eqn:Hfind.
    + rewrite (booking_update_found i data w b Hfind).
      destruct (BookingRepository.setattrs b data) as [c|] eqn:Hs;
        [|apply step_same].
      destruct (Booking.eq_dec c b); [apply step_same|].
      apply (step_update_booking w i data b c Hfind Hs).
    + rewrite (booking_update_missing i data w Hfind). apply step_same.
  - unfold BookingService.cancel_booking, BookingService.update_booking, bind.
    destruct (find_booking i (db w)) as [b|] eqn:Hfind.
    + rewrite (booking_update_found i _ w b Hfind).
      destruct (BookingRepository.setattrs b _) as [c|] eqn:Hs;
        [|apply step_same].
      destruct (Booking.eq_dec c b); [apply step_same|].
      apply (step_update_booking w i _ b c Hfind Hs).
    + rewrite (booking_update_missing i _ w Hfind). apply step_same.
  - unfold BookingService.delete_booking, bind.
    destruct (find_booking i (db w)) as [b|] eqn:Hfind.
    + rewrite (booking_delete_found i w b Hfind).
      apply (step_delete_booking w i b Hfind).
    + rewrite (booking_delete_missing i w Hfind). apply step_same.
Qed.

(** A property every transition keeps holds after any requests. *)
Lemma run_keeps (P : World -> Prop) :
  (forall w w', P w -> step w w' -> P w') ->
  forall (rs : list request) (w : World), P w -> P (run rs w).
Proof.
  intros Hstep rs. induction rs as [|r rs IH]; intros w Hw; [exact Hw|].
  simpl. apply IH. apply (Hstep w); [exact Hw | apply handle_step].
Qed.

(** ** Primary keys *)

Section Keys.
Context {A : Type} (key : A -> Z).

Lemma keys_replaced (row : A) (rows : list A) :
  map key (map (fun r => if key r =? key row then row else r) rows)
  = map key rows.
Proof.
  induction rows as [|r rows IH]; simpl; [reflexivity|].
  rewrite IH. destruct (key r =? key row) eqn:E; [|reflexivity].
  apply Z.eqb_eq in E. now rewrite E.
Qed.

Lemma keys_filtered_in (g : A -> bool) (rows : list A) (k : Z) :
  In k (map key (filter g rows)) -> In k (map key rows).
Proof.
  rewrite !in_map_iff. intros (r & Hk & Hin).
  apply filter_In in Hin. exists r. tauto.
Qed.

Lemma keys_filtered_nodup (g : A -> bool) (rows : list A) :
  NoDup (map key rows) -> NoDup (map key (filter g rows)).
Proof.
  induction rows as [|r rows IH]; simpl; intros Hnd; [constructor|].
  inversion Hnd as [|? ? Hnotin Hnd']; subst.
  destruct (g r); simpl; [|now apply IH].
  constructor; [|now apply IH].
  intros Hin. apply Hnotin. now apply keys_filtered_in in Hin.
Qed.

Lemma key_fresh (n : Z) (rows : list A) :
  Forall (fun r => key r <= n) rows -> ~ In (n + 1) (map key rows).
Proof.
  intros Hall Hin. apply in_map_iff in Hin. destruct Hin as (r & Hk & Hin).
  rewrite Forall_forall in Hall. specialize (Hall r Hin). lia.
Qed.

Lemma keys_appended_nodup (n : Z) (rows : list A) (row : A) :
  key row = n + 1 ->
  NoDup (map key rows) -> Forall (fun r => key r <= n) rows ->
  NoDup (map key (rows ++ [row])).
Proof.
  intros Hrow Hnd Hall. rewrite map_app. simpl.
  apply NoDup_app; [exact Hnd | repeat constructor; intros [] |].
  intros k Hin [Hk|[]]. subst k. rewrite Hrow in Hin.
  now apply (key_fresh n rows).
Qed.

Lemma keys_bounded (n : Z) (rows : list A) :
  Forall (fun r => key r <= n) rows <-> Forall (fun k => k <= n) (map key rows).
Proof. now rewrite Forall_map. Qed.

(** With distinct keys, the row found under a key is any row of the table
    that has the key. *)
Lemma find_unique (rows : list A) (r : A) :
  NoDup (map key rows) -> In r rows ->
  find (fun x => key x =? key r) rows = Some r.
Proof.
  induction rows as [|x rows IH]; simpl; intros Hnd Hin; [contradiction|].
  inversion Hnd as [|? ? Hnotin Hnd']; subst.
  destruct Hin as [->|Hin]; [now rewrite Z.eqb_refl|].
  destruct (key x =? key r) eqn:E; [|now apply IH].
  apply Z.eqb_eq in E. elim Hnotin. rewrite E. now apply in_map.
Qed.

End Keys.

Lemma step_keeps_keys (w w' : World) :
  keys_ok (db w) -> step w w' -> keys_ok (db w').
Proof.
  intros (Hpn & Hpb & Hbn & Hbb) Hstep. unfold keys_ok.
  destruct Hstep as [| |data|i data p c Hfind Hs|i p Hfind Hex
                     |data p Hfind|i data b c Hfind Hs|i b Hfind]; simpl.
  - tauto.
  - tauto.
  - repeat split; try assumption.
    + now apply (keys_appended_nodup Provider.id (providers_id_seq (db w))).
    + apply Forall_app. split.
      * apply Forall_impl with (2 := Hpb). intros; lia.
      * repeat constructor. simpl. lia.
  - unfold ProviderRepository.replace_row. repeat split; try assumption.
    + now rewrite (keys_replaced Provider.id).
    + apply (keys_bounded Provider.id).
      rewrite (keys_replaced Provider.id).
      now apply (keys_bounded Provider.id).
  - unfold other_providers. repeat split; try assumption.
    + now apply (keys_filtered_nodup Provider.id).
    + apply Forall_forall. intros x Hin. apply filter_In in Hin.
      rewrite Forall_forall in Hpb. now apply Hpb.
  - repeat split; try assumption.
    + now apply (keys_appended_nodup Booking.id (bookings_id_seq (db w))).
    + apply Forall_app. split.
      * apply Forall_impl with (2 := Hbb). intros; lia.
      * repeat constructor. simpl. lia.
  - unfold BookingRepository.replace_row. repeat split; try assumption.
    + now rewrite (keys_replaced Booking.id).
    + apply (keys_bounded Booking.id).
      rewrite (keys_replaced Booking.id).
      now apply (keys_bounded Booking.id).
  - unfold other_bookings. repeat split; try assumption.
    + now apply (keys_filtered_nodup Booking.id).
    + apply Forall_forall. intros x Hin. apply filter_In in Hin.
      rewrite Forall_forall in Hbb. now apply Hbb.
Qed.

(** X1: the ids of each table stay pairwise distinct, and no greater than
    the last value drawn from the table's sequence, through every sequence
    of requests. *)
Theorem keys_preserved (rs : list request) (w : World) :
  keys_ok (db w) -> keys_ok (db (run rs w)).
Proof.
  apply (run_keeps (fun w => keys_ok (db w))). exact step_keeps_keys.
Qed.

Lemma keys_preserved_witness :
  keys_ok (db (run [RegisterProvider Sample.city_clinic;
                    CreateBooking (Sample.john 604800000000);
                    RegisterProvider Sample.city_clinic;
                    UpdateBooking 1 Sample.confirm;
                    DeleteProvider 2]
                   Sample.empty_world)).
Proof.
  apply keys_preserved. repeat split; constructor.
Defined.

(** ** The foreign key *)

Lemma setattrs_provider_id (b c : Booking.t) (data : BookingUpdate.t) :
  BookingRepository.setattrs b data = Some c ->
  Booking.provider_id c = Booking.provider_id b.
Proof.
  intros Hs. apply booking_setattrs_frame in Hs.
  destruct Hs as [(_ & Hp & _) _]. exact Hp.
Qed.

Lemma step_keeps_references (w w' : World) :
  references_ok (db w) -> step w w' -> references_ok (db w').
Proof.
  intros Hok Hstep. unfold references_ok in *.
  destruct Hstep as [| |data|i data p c Hfind Hs|i p Hfind Hex
                     |data p Hfind|i data b c Hfind Hs|i b Hfind]; simpl.
  - exact Hok.
  - exact Hok.
  - apply Forall_impl with (2 := Hok). intros b Hin.
    rewrite map_app. apply in_or_app. now left.
  - unfold ProviderRepository.replace_row.
    now rewrite (keys_replaced Provider.id).
  - apply Forall_forall. intros b Hb.
    rewrite Forall_forall in Hok. specialize (Hok b Hb).
    apply in_map_iff in Hok. destruct Hok as (q & Hq & Hin).
    apply in_map_iff. exists q. split; [exact Hq|].
    unfold other_providers. apply filter_In. split; [exact Hin|].
    apply negb_true_iff, Z.eqb_neq. intros Hi.
    assert (Hex' : existsb (fun b0 => Booking.provider_id b0 =? i)
                     (bookings (db w)) = true).
    { apply existsb_exists. exists b. split; [exact Hb|].
      apply Z.eqb_eq. congruence. }
    congruence.
  - apply Forall_app. split; [exact Hok|].
    constructor; [|constructor]. simpl.
    apply (find_key Provider.id) in Hfind. destruct Hfind as [Hid Hin].
    rewrite <- Hid. now apply in_map.
  - unfold BookingRepository.replace_row. apply Forall_map.
    apply Forall_forall. intros x Hx.
    rewrite Forall_forall in Hok.
    destruct (Booking.id x =? _); [|now apply Hok]. simpl.
    rewrite (setattrs_provider_id b c data Hs).
    apply Hok. apply find_some in Hfind. tauto.
  - unfold other_bookings. apply Forall_forall. intros x Hx.
    apply filter_In in Hx. rewrite Forall_forall in Hok. now apply Hok.
Qed.

(** X2: when every booking names a provider of the table, it is still so
    after any sequence of requests: a booking is created only for a provider
    that is found, no update moves a booking to another provider, and a
    provider that bookings name is not removed. *)
Theorem references_preserved (rs : list request) (w : World) :
  references_ok (db w) -> references_ok (db (run rs w)).
Proof.
  apply (run_keeps (fun w => references_ok (db w))).
  exact step_keeps_references.
Qed.

Lemma references_preserved_witness :
  references_ok (db (run [RegisterProvider Sample.city_clinic;
                          CreateBooking (Sample.john 604800000000);
                          DeleteProvider 1;
                          CancelBooking 1]
                         Sample.empty_world)).
Proof.
  apply references_preserved. constructor.
Defined.

(** ** The audit stamps *)

Lemma now_tick (w : World) : now (tick w) = clock w (S (reads w)).
Proof. reflexivity. Qed.

Lemma step_keeps_clock (w w' : World) :
  step w w' -> clock w' = clock w /\ (reads w <= reads w')%nat.
Proof.
  intros Hstep. destruct Hstep; simpl; split; auto with arith.
Qed.

Lemma step_keeps_stamps (w w' : World) :
  monotone (clock w) -> stamps_ok w -> step w w' -> stamps_ok w'.
Proof.
  intros Hmono [Hp Hb] Hstep.
  assert (Hnow : now w <= now w').
  { destruct (step_keeps_clock w w' Hstep) as [Hc Hr].
    unfold now. rewrite Hc. now apply Hmono. }
  assert (Hp' : Forall (fun p => Provider.created_at p <= Provider.updated_at p
                                 /\ Provider.updated_at p <= now w')
                       (providers (db w))).
  { apply Forall_impl with (2 := Hp). intros p [H1 H2]. split; lia. }
  assert (Hb' : Forall (fun b => Booking.created_at b <= Booking.updated_at b
                                 /\ Booking.updated_at b <= now w')
                       (bookings (db w))).
  { apply Forall_impl with (2 := Hb). intros b [H1 H2]. split; lia. }
  clear Hnow. unfold stamps_ok.
  destruct Hstep as [| |data|i data p c Hfind Hs|i p Hfind Hex
                     |data p Hfind|i data b c Hfind Hs|i b Hfind];
    simpl in *.
  - now split.
  - now split.
  - split; [|exact Hb'].
    apply Forall_app. split; [exact Hp'|].
    constructor; [|constructor]. simpl. unfold now; simpl.
    split; apply Hmono; lia.
  - split; [|exact Hb'].
    unfold ProviderRepository.replace_row. apply Forall_map.
    apply Forall_forall. intros x Hx.
    rewrite Forall_forall in Hp'.
    destruct (Provider.id x =? _); [|now apply Hp'].
    apply provider_setattrs_frame in Hs.
    destruct Hs as [(_ & Hcr & _) Hup].
    apply find_some in Hfind. destruct Hfind as [Hin _].
    rewrite Forall_forall in Hp. destruct (Hp p Hin) as [H1 H2].
    destruct c; simpl in *. subst. unfold now in *; simpl.
    split; [lia|]. apply Hmono. lia.
  - split; [|exact Hb'].
    unfold other_providers. apply Forall_forall. intros x Hx.
    apply filter_In in Hx. rewrite Forall_forall in Hp'. now apply Hp'.
  - split; [exact Hp'|].
    apply Forall_app. split; [exact Hb'|].
    constructor; [|constructor]. simpl. unfold now; simpl.
    split; apply Hmono; lia.
  - split; [exact Hp'|].
    unfold BookingRepository.replace_row. apply Forall_map.
    apply Forall_forall. intros x Hx.
    rewrite Forall_forall in Hb'.
    destruct (Booking.id x =? _); [|now apply Hb'].
    apply booking_setattrs_frame in Hs.
    destruct Hs as [(_ & _ & Hcr & _) Hup].
    apply find_some in Hfind. destruct Hfind as [Hin _].
    rewrite Forall_forall in Hb. destruct (Hb b Hin) as [H1 H2].
    destruct c; simpl in *. subst. unfold now in *; simpl.
    split; [lia|]. apply Hmono. lia.
  - split; [exact Hp'|].
    unfold other_bookings. apply Forall_forall. intros x Hx.
    apply filter_In in Hx. rewrite Forall_forall in Hb'. now apply Hb'.
Qed.

(** X3: with a clock that never goes back, every stored provider and
    booking has [created_at <= updated_at], and no stamp is later than the
    clock, after any sequence of requests from a world where this holds. *)
Theorem stamps_preserved (rs : list request) (w : World) :
  monotone (clock w) -> stamps_ok w -> stamps_ok (run rs w).
Proof.
  intros Hmono Hok.
  assert (H : clock (run rs w) = clock w /\ stamps_ok (run rs w)).
  { apply (run_keeps (fun x => clock x = clock w /\ stamps_ok x));
      [|now split].
    intros x x' [Hc Hs] Hstep. split.
    - destruct (step_keeps_clock x x' Hstep) as [Hc' _]. congruence.
    - apply (step_keeps_stamps x x'); [now rewrite Hc | exact Hs | exact Hstep]. }
  tauto.
Qed.

Lemma stamps_preserved_witness :
  stamps_ok (run [RegisterProvider Sample.city_clinic;
                  CreateBooking (Sample.john 604800000000);
                  UpdateBooking 1 Sample.confirm;
                  UpdateProvider 1 Sample.blank_name]
                 Sample.empty_world).
Proof.
  apply stamps_preserved.
  - intros n m Hnm. simpl. unfold Sample.ticking. lia.
  - split; constructor.
Defined.

(** ** Lookups after a write *)

Section Lookup.
Context {A : Type} (key : A -> Z).

Lemma find_fresh (n : Z) (rows : list A) :
  Forall (fun r => key r <= n) rows ->
  find (fun r => key r =? n + 1) rows = None.
Proof.
  induction 1 as [|r rows Hr _ IH]; simpl; [reflexivity|].
  destruct (key r =? n + 1) eqn:E; [|exact IH].
  apply Z.eqb_eq in E. lia.
Qed.

Lemma find_other_replaced (k : Z) (row : A) (rows : list A) :
  key row <> k ->
  find (fun r => key r =? k)
       (map (fun r => if key r =? key row then row else r) rows)
  = find (fun r => key r =? k) rows.
Proof.
  intros Hne. induction rows as [|r rows IH]; simpl; [reflexivity|].
  destruct (key r =? key row) eqn:E.
  - apply Z.eqb_eq in E.
    replace (key row =? k) with false by (symmetry; now apply Z.eqb_neq).
    replace (key r =? k) with false
      by (symmetry; apply Z.eqb_neq; congruence).
    exact IH.
  - now rewrite IH.
Qed.

Lemma find_other_removed (k j : Z) (rows : list A) :
  j <> k ->
  find (fun r => key r =? k) (filter (fun r => negb (key r =? j)) rows)
  = find (fun r => key r =? k) rows.
Proof.
  intros Hne. induction rows as [|r rows IH]; simpl; [reflexivity|].
  destruct (key r =? j) eqn:E; simpl.
  - apply Z.eqb_eq in E.
    replace (key r =? k) with false
      by (symmetry; apply Z.eqb_neq; congruence).
    exact IH.
  - now rewrite IH.
Qed.

End Lookup.

Lemma get_provider_found (i : Z) (w : World) (p : Provider.t) :
  find_provider i (db w) = Some p ->
  ProviderService.get_provider i w = Return p w.
Proof.
  intros Hfind.
  unfold ProviderService.get_provider, ProviderRepository.get_by_id.
  rewrite bind_query. fold (find_provider i (db w)). now rewrite Hfind.
Qed.

Lemma get_provider_missing (i : Z) (w : World) :
  find_provider i (db w) = None ->
  ProviderService.get_provider i w = Raise (ProviderService.not_found i) w.
Proof.
  intros Hfind.
  unfold ProviderService.get_provider, ProviderRepository.get_by_id.
  rewrite bind_query. fold (find_provider i (db w)). now rewrite Hfind.
Qed.

Lemma get_booking_found (i : Z) (w : World) (b : Booking.t) :
  find_booking i (db w) = Some b ->
  BookingService.get_booking i w = Return b w.
Proof.
  intros Hfind.
  unfold BookingService.get_booking, BookingRepository.get_by_id.
  rewrite bind_query. fold (find_booking i (db w)). now rewrite Hfind.
Qed.

Lemma get_booking_missing (i : Z) (w : World) :
  find_booking i (db w) = None ->
  BookingService.get_booking i w = Raise (BookingService.not_found i) w.
Proof.
  intros Hfind.
  unfold BookingService.get_booking, BookingRepository.get_by_id.
  rewrite bind_query. fold (find_booking i (db w)). now rewrite Hfind.
Qed.

Lemma provider_create_eq (data : ProviderCreate.t) (w : World) :
  ProviderRepository.create data w
  = Return
      (Provider.mk (providers_id_seq (db w) + 1)
         (ProviderCreate.name data) (ProviderCreate.sector data)
         (ProviderCreate.phone data) (ProviderCreate.email data)
         (ProviderCreate.address data) true (now w) (now (tick w)))
      (mkWorld
         (mkDB (providers (db w)
                ++ [Provider.mk (providers_id_seq (db w) + 1)
                      (ProviderCreate.name data) (ProviderCreate.sector data)
                      (ProviderCreate.phone data) (ProviderCreate.email data)
                      (ProviderCreate.address data) true
                      (now w) (now (tick w))])
               (bookings (db w))
               (providers_id_seq (db w) + 1) (bookings_id_seq (db w)))
         (clock w) (S (S (reads w)))).
Proof. reflexivity. Qed.

Lemma register_provider_inv (data : ProviderCreate.t) (w w' : World)
    (p : Provider.t) :
  ProviderService.register_provider data w = Return p w' ->
  ProviderRepository.create data w = Return p w'.
Proof.
  unfold ProviderService.register_provider.
  destruct (negb _); [discriminate|].
  now destruct (negb _).
Qed.

(** X4: with distinct ids drawn from the sequence, the provider a
    registration returns is the one [get_provider] returns for its id in the
    world the registration leaves; it is active and carries the five fields
    of the payload. *)
Theorem register_then_get (data : ProviderCreate.t) (w w' : World)
    (p : Provider.t) :
  keys_ok (db w) ->
  ProviderService.register_provider data w = Return p w' ->
  ProviderService.get_provider (Provider.id p) w' = Return p w'
  /\ Provider.is_active p = true
  /\ Provider.name p = ProviderCreate.name data
  /\ Provider.sector p = ProviderCreate.sector data
  /\ Provider.phone p = ProviderCreate.phone data
  /\ Provider.email p = ProviderCreate.email data
  /\ Provider.address p = ProviderCreate.address data.
Proof.
  intros (_ & Hpb & _) Hreg.
  apply register_provider_inv in Hreg.
  rewrite provider_create_eq in Hreg. injection Hreg as <- <-.
  split; [|simpl; tauto].
  apply get_provider_found. unfold find_provider. simpl.
  rewrite (find_appended Provider.id).
  rewrite (find_fresh Provider.id _ _ Hpb). simpl.
  now rewrite Z.eqb_refl.
Qed.

Lemma register_then_get_witness :
  ProviderService.get_provider
    (Provider.id (Provider.mk 1 (Sample.text "City Clinic")
                    (Sample.text "medical") None None None true
                    1000000 1000001))
    Sample.clinic_world
  = Return (Provider.mk 1 (Sample.text "City Clinic")
              (Sample.text "medical") None None None true 1000000 1000001)
      Sample.clinic_world
  /\ true = true
  /\ Sample.text "City Clinic" = ProviderCreate.name Sample.city_clinic
  /\ Sample.text "medical" = ProviderCreate.sector Sample.city_clinic
  /\ None = ProviderCreate.phone Sample.city_clinic
  /\ None = ProviderCreate.email Sample.city_clinic
  /\ None = ProviderCreate.address Sample.city_clinic.
Proof.
  refine (register_then_get Sample.city_clinic Sample.empty_world
            Sample.clinic_world
            (Provider.mk 1 (Sample.text "City Clinic")
               (Sample.text "medical") None None None true 1000000 1000001)
            _ _).
  - repeat split; constructor.
  - vm_compute. reflexivity.
Defined.

Lemma create_booking_inv (data : BookingCreate.t) (w w' : World)
    (b : Booking.t) :
  BookingService.create_booking data w = Return b w' ->
  exists p,
    find_provider (BookingCreate.provider_id data) (db w) = Some p
    /\ Provider.is_active p = true
    /\ now w <= BookingCreate.scheduled_at data
    /\ b = Booking.mk (bookings_id_seq (db w) + 1)
             (BookingCreate.provider_id data)
             (BookingCreate.client_name data)
             (BookingCreate.client_phone data)
             (BookingCreate.client_email data)
             (BookingCreate.service_type data)
             (BookingCreate.scheduled_at data)
             BookingStatus.PENDING (BookingCreate.notes data)
             (now (tick w)) (now (tick (tick w)))
    /\ w' = mkWorld
              (mkDB (providers (db w)) (bookings (db w) ++ [b])
                    (providers_id_seq (db w)) (bookings_id_seq (db w) + 1))
              (clock w) (S (S (S (reads w)))).
Proof.
  intros Hc.
  unfold BookingService.create_booking, ProviderRepository.get_by_id in Hc.
  rewrite bind_query in Hc.
  fold (find_provider (BookingCreate.provider_id data) (db w)) in Hc.
  destruct (find_provider _ _) as [p|]; [|discriminate].
  exists p. split; [reflexivity|].
  destruct (Provider.is_active p); [|discriminate]. split; [reflexivity|].
  simpl in Hc. rewrite bind_utcnow in Hc.
  destruct (BookingCreate.scheduled_at data <? now w) eqn:Hlt;
    [discriminate|].
  apply Z.ltb_ge in Hlt. split; [exact Hlt|].
  unfold BookingRepository.create in Hc.
  rewrite !bind_utcnow, bind_query in Hc.
  destruct (existsb _ _); [|discriminate].
  rewrite bind_query, bind_commit in Hc.
  injection Hc as <- <-. split; reflexivity.
Qed.

(** X5: with distinct ids drawn from the sequence, the booking a creation
    returns is the one [get_booking] returns for its id in the world the
    creation leaves; it carries the seven fields of the payload, and its
    provider was found active and its time was not before the clock. *)
Theorem create_then_get (data : BookingCreate.t) (w w' : World)
    (b : Booking.t) :
  keys_ok (db w) ->
  BookingService.create_booking data w = Return b w' ->
  BookingService.get_booking (Booking.id b) w' = Return b w'
  /\ Booking.provider_id b = BookingCreate.provider_id data
  /\ Booking.client_name b = BookingCreate.client_name data
  /\ Booking.client_phone b = BookingCreate.client_phone data
  /\ Booking.client_email b = BookingCreate.client_email data
  /\ Booking.service_type b = BookingCreate.service_type data
  /\ Booking.scheduled_at b = BookingCreate.scheduled_at data
  /\ Booking.notes b = BookingCreate.notes data
  /\ now w <= Booking.scheduled_at b
  /\ exists p,
       find_provider (Booking.provider_id b) (db w) = Some p
       /\ Provider.is_active p = true.
Proof.
  intros (_ & _ & _ & Hbb) Hc.
  apply create_booking_inv in Hc.
  destruct Hc as (p & Hfind & Hact & Hnow & -> & ->).
  split; [|simpl; repeat split; try assumption; now exists p].
  apply get_booking_found. unfold find_booking. simpl.
  rewrite (find_appended Booking.id).
  rewrite (find_fresh Booking.id _ _ Hbb). simpl.
  now rewrite Z.eqb_refl.
Qed.

Lemma create_then_get_witness :
  BookingService.get_booking (Booking.id Sample.pending_booking)
    Sample.booked_world
  = Return Sample.pending_booking Sample.booked_world.
Proof.
  refine (proj1 (create_then_get (Sample.john 604800000000)
                   Sample.clinic_world Sample.booked_world
                   Sample.pending_booking _ _)).
  - repeat split; repeat constructor; vm_compute; intuition discriminate.
  - vm_compute. reflexivity.
Defined.

Lemma update_booking_inv (i : Z) (data : BookingUpdate.t) (w w' : World)
    (b' : Booking.t) :
  BookingService.update_booking i data w = Return b' w' ->
  BookingRepository.update i data w = Return (Some b') w'.
Proof.
  unfold BookingService.update_booking, bind.
  destruct (BookingRepository.update i data w) as [[r|] w1|e w1];
    try discriminate.
  now intros [= -> ->].
Qed.

Lemma update_provider_inv (i : Z) (data : ProviderUpdate.t) (w w' : World)
    (p' : Provider.t) :
  ProviderService.update_provider i data w = Return p' w' ->
  ProviderRepository.update i data w = Return (Some p') w'.
Proof.
  unfold ProviderService.update_provider, bind.
  destruct (ProviderRepository.update i data w) as [[r|] w1|e w1];
    try discriminate.
  now intros [= -> ->].
Qed.

Lemma booking_update_others (i j : Z) (data : BookingUpdate.t) (w w' : World)
    (r : option Booking.t) :
  BookingRepository.update i data w = Return r w' -> j <> i ->
  find_booking j (db w') = find_booking j (db w).
Proof.
  intros Hu Hne.
  destruct (find_booking i (db w)) as [b|] eqn:Hfind.
  - rewrite (booking_update_found i data w b Hfind) in Hu.
    destruct (BookingRepository.setattrs b data) as [c|] eqn:Hs;
      [|discriminate].
    destruct (Booking.eq_dec c b); [now injection Hu as <- <-|].
    cbv zeta in Hu. injection Hu as <- <-.
    apply (find_other_replaced Booking.id j
             (Booking.set_updated_at c (now w))).
    simpl.
    apply booking_setattrs_frame in Hs. destruct Hs as [(Hid & _) _].
    apply (find_key Booking.id) in Hfind. destruct Hfind as [Hk _].
    congruence.
  - rewrite (booking_update_missing i data w Hfind) in Hu.
    now injection Hu as <- <-.
Qed.

Lemma provider_update_others (i j : Z) (data : ProviderUpdate.t)
    (w w' : World) (r : option Provider.t) :
  ProviderRepository.update i data w = Return r w' -> j <> i ->
  find_provider j (db w') = find_provider j (db w).
Proof.
  intros Hu Hne.
  destruct (find_provider i (db w)) as [p|] eqn:Hfind.
  - rewrite (provider_update_found i data w p Hfind) in Hu.
    destruct (ProviderRepository.setattrs p data) as [c|] eqn:Hs;
      [|discriminate].
    destruct (Provider.eq_dec c p); [now injection Hu as <- <-|].
    cbv zeta in Hu. injection Hu as <- <-.
    apply (find_other_replaced Provider.id j
             (Provider.set_updated_at c (now w))).
    simpl.
    apply provider_setattrs_frame in Hs. destruct Hs as [(Hid & _) _].
    apply (find_key Provider.id) in Hfind. destruct Hfind as [Hk _].
    congruence.
  - rewrite (provider_update_missing i data w Hfind) in Hu.
    now injection Hu as <- <-.
Qed.

(** X6: what an update returns is what a lookup of the same id returns
    afterwards, and the lookup of every other id answers as before; for
    bookings and for providers. *)
Theorem update_then_get :
  (forall (i : Z) (data : BookingUpdate.t) (w w' : World) (b' : Booking.t),
      BookingService.update_booking i data w = Return b' w' ->
      BookingService.get_booking i w' = Return b' w'
      /\ forall j, j <> i -> find_booking j (db w') = find_booking j (db w))
  /\
  (forall (i : Z) (data : ProviderUpdate.t) (w w' : World) (p' : Provider.t),
      ProviderService.update_provider i data w = Return p' w' ->
      ProviderService.get_provider i w' = Return p' w'
      /\ forall j, j <> i -> find_provider j (db w') = find_provider j (db w)).
Proof.
  split.
  - intros i data w w' b' Hu. apply update_booking_inv in Hu. split.
    + apply get_booking_found.
      apply booking_update_inv in Hu. destruct Hu as (b & _ & _ & H & _).
      exact H.
    + intros j Hne. exact (booking_update_others i j data w w' _ Hu Hne).
  - intros i data w w' p' Hu. apply update_provider_inv in Hu. split.
    + apply get_provider_found.
      apply provider_update_inv in Hu. destruct Hu as (p & _ & _ & H & _).
      exact H.
    + intros j Hne. exact (provider_update_others i j data w w' _ Hu Hne).
Qed.

Lemma update_then_get_witness :
  BookingService.get_booking 1
    (world_of (BookingService.update_booking 1 Sample.confirm
                 Sample.booked_world))
  = Return Sample.confirmed_booking
      (world_of (BookingService.update_booking 1 Sample.confirm
                   Sample.booked_world)).
Proof.
  refine (proj1 (proj1 update_then_get 1 Sample.confirm Sample.booked_world
                   _ Sample.confirmed_booking _)).
  vm_compute. reflexivity.
Defined.

(** ** Lookups after a deletion *)

Lemma delete_booking_inv (i : Z) (w w' : World) (r : bool) :
  BookingService.delete_booking i w = Return r w' ->
  exists b,
    find_booking i (db w) = Some b
    /\ r = true
    /\ w' = mkWorld
              (mkDB (providers (db w)) (other_bookings i (db w))
                    (providers_id_seq (db w)) (bookings_id_seq (db w)))
              (clock w) (reads w).
Proof.
  unfold BookingService.delete_booking, bind.
  destruct (find_booking i (db w)) as [b|] eqn:Hfind.
  - rewrite (booking_delete_found i w b Hfind).
    intros [= <- <-]. now exists b.
  - rewrite (booking_delete_missing i w Hfind). discriminate.
Qed.

(** X7: once a booking is deleted, looking it up, updating it, cancelling
    it and deleting it again all raise the not-found error and leave the
    world alone, while every other id is looked up as before and the
    providers are untouched. *)
Theorem delete_booking_then_missing (i : Z) (w w' : World) (r : bool) :
  BookingService.delete_booking i w = Return r w' ->
  BookingService.get_booking i w' = Raise (BookingService.not_found i) w'
  /\ (forall data,
        BookingService.update_booking i data w'
        = Raise (BookingService.not_found i) w')
  /\ BookingService.cancel_booking i w'
     = Raise (BookingService.not_found i) w'
  /\ BookingService.delete_booking i w'
     = Raise (BookingService.not_found i) w'
  /\ (forall j, j <> i -> find_booking j (db w') = find_booking j (db w))
  /\ providers (db w') = providers (db w).
Proof.
  intros Hd. apply delete_booking_inv in Hd.
  destruct Hd as (b & _ & _ & ->).
  assert (Hgone : find_booking i
                    (db (mkWorld
                           (mkDB (providers (db w)) (other_bookings i (db w))
                                 (providers_id_seq (db w))
                                 (bookings_id_seq (db w)))
                           (clock w) (reads w))) = None)
    by apply (find_removed Booking.id).
  split; [now apply get_booking_missing|].
  split; [intros data; now apply update_booking_missing|].
  split; [now apply update_booking_missing|].
  split.
  - unfold BookingService.delete_booking, bind.
    now rewrite (booking_delete_missing i _ Hgone).
  - split; [|reflexivity].
    intros j Hne. unfold find_booking, other_bookings. simpl.
    now apply (find_other_removed Booking.id).
Qed.

Lemma delete_booking_then_missing_witness :
  BookingService.get_booking 1
    (world_of (BookingService.delete_booking 1 Sample.booked_world))
  = Raise (BookingService.not_found 1)
      (world_of (BookingService.delete_booking 1 Sample.booked_world)).
Proof.
  refine (proj1 (delete_booking_then_missing 1 Sample.booked_world _ true _)).
  vm_compute. reflexivity.
Defined.

Lemma delete_provider_inv (i : Z) (w w' : World) (r : bool) :
  ProviderService.delete_provider i w = Return r w' ->
  exists p,
    find_provider i (db w) = Some p
    /\ existsb (fun b => Booking.provider_id b =? i) (bookings (db w)) = false
    /\ w' = mkWorld
              (mkDB (other_providers i (db w)) (bookings (db w))
                    (providers_id_seq (db w)) (bookings_id_seq (db w)))
              (clock w) (reads w).
Proof.
  unfold ProviderService.delete_provider, bind.
  destruct (find_provider i (db w)) as [p|] eqn:Hfind.
  - rewrite (provider_delete_found i w p Hfind).
    destruct (existsb _ _); [discriminate|].
    intros [= <- <-]. now exists p.
  - rewrite (provider_delete_missing i w Hfind). discriminate.
Qed.

Lemma create_booking_unknown (data : BookingCreate.t) (w : World) :
  find_provider (BookingCreate.provider_id data) (db w) = None ->
  BookingService.create_booking data w
  = Raise (ValueError ("Provider with ID "
                       ++ str_of_int (BookingCreate.provider_id data)
                       ++ " not found")) w.
Proof.
  intros Hfind. pose proof (create_booking_checks_in_order data w) as H.
  now rewrite Hfind in H.
Qed.

Lemma create_booking_inactive (data : BookingCreate.t) (w : World)
    (p : Provider.t) :
  find_provider (BookingCreate.provider_id data) (db w) = Some p ->
  Provider.is_active p = false ->
  BookingService.create_booking data w
  = Raise (ValueError "Provider is not active and cannot accept bookings") w.
Proof.
  intros Hfind Hact. pose proof (create_booking_checks_in_order data w) as H.
  now rewrite Hfind, Hact in H.
Qed.

(** X8: a provider is deleted only when no booking names it; once deleted,
    looking it up and deleting it again raise the not-found error, a booking
    for it is refused as for a provider that never existed, and the
    bookings are untouched. *)
Theorem delete_provider_then_missing (i : Z) (w w' : World) (r : bool) :
  ProviderService.delete_provider i w = Return r w' ->
  (forall b, In b (bookings (db w)) -> Booking.provider_id b <> i)
  /\ bookings (db w') = bookings (db w)
  /\ ProviderService.get_provider i w'
     = Raise (ProviderService.not_found i) w'
  /\ ProviderService.delete_provider i w'
     = Raise (ProviderService.not_found i) w'
  /\ (forall data,
        BookingCreate.provider_id data = i ->
        BookingService.create_booking data w'
        = Raise (ValueError ("Provider with ID " ++ str_of_int i
                             ++ " not found")) w').
Proof.
  intros Hd. apply delete_provider_inv in Hd.
  destruct Hd as (p & _ & Hex & ->).
  assert (Hgone : find_provider i
                    (db (mkWorld
                           (mkDB (other_providers i (db w)) (bookings (db w))
                                 (providers_id_seq (db w))
                                 (bookings_id_seq (db w)))
                           (clock w) (reads w))) = None)
    by apply (find_removed Provider.id).
  split.
  - intros b Hin Hb.
    assert (Hex' : existsb (fun b0 => Booking.provider_id b0 =? i)
                     (bookings (db w)) = true).
    { apply existsb_exists. exists b. split; [exact Hin|].
      now apply Z.eqb_eq. }
    congruence.
  - split; [reflexivity|].
    split; [now apply get_provider_missing|].
    split.
    + unfold ProviderService.delete_provider, bind.
      now rewrite (provider_delete_missing i _ Hgone).
    + intros data <-. now apply create_booking_unknown.
Qed.

Lemma delete_provider_then_missing_witness :
  ProviderService.get_provider 1
    (world_of (ProviderService.delete_provider 1 Sample.clinic_world))
  = Raise (ProviderService.not_found 1)
      (world_of (ProviderService.delete_provider 1 Sample.clinic_world)).
Proof.
  refine (proj1 (proj2 (proj2 (delete_provider_then_missing 1
                                 Sample.clinic_world _ true _)))).
  vm_compute. reflexivity.
Defined.

(** ** Deactivation *)

Lemma setattrs_is_active (p c : Provider.t) (data : ProviderUpdate.t)
    (v : bool) :
  ProviderRepository.setattrs p data = Some c ->
  ProviderUpdate.is_active data = Provided (Some v) ->
  Provider.is_active c = v.
Proof.
  unfold ProviderRepository.setattrs. intros Hs Hv. rewrite Hv in Hs.
  destruct (set_required (Provider.name p) _); [|discriminate].
  destruct (set_required (Provider.sector p) _); [|discriminate].
  simpl in Hs. now injection Hs as <-.
Qed.

(** X9: after an update that sets [is_active] to false, every booking
    creation for that provider is refused with the inactive error, whatever
    its time, and the world is left alone; the bookings made before are
    untouched by the update. *)
Theorem deactivated_provider_refuses_bookings
    (i : Z) (data : ProviderUpdate.t) (w w' : World) (p' : Provider.t) :
  ProviderUpdate.is_active data = Provided (Some false) ->
  ProviderService.update_provider i data w = Return p' w' ->
  Provider.is_active p' = false
  /\ bookings (db w') = bookings (db w)
  /\ forall booking,
       BookingCreate.provider_id booking = i ->
       BookingService.create_booking booking w'
       = Raise (ValueError
                  "Provider is not active and cannot accept bookings") w'.
Proof.
  intros Hv Hu. apply update_provider_inv in Hu.
  pose proof Hu as Hinv. apply provider_update_inv in Hinv.
  destruct Hinv as (p & Hfind & _ & Hfound & _ & Hb).
  assert (Hact : Provider.is_active p' = false).
  { rewrite (provider_update_found i data w p Hfind) in Hu.
    destruct (ProviderRepository.setattrs p data) as [c|] eqn:Hs;
      [|discriminate].
    pose proof (setattrs_is_active p c data false Hs Hv) as Hc.
    destruct (Provider.eq_dec c p) as [->|_].
    - now injection Hu as <- <-.
    - cbv zeta in Hu. injection Hu as <- <-. now destruct c. }
  split; [exact Hact|]. split; [exact Hb|].
  intros booking <-. now apply (create_booking_inactive booking w' p').
Qed.

Lemma deactivated_provider_refuses_bookings_witness :
  BookingService.create_booking (Sample.john 604800000000)
    (world_of (ProviderService.update_provider 1
                 (ProviderUpdate.mk Unset Unset Unset Unset Unset
                    (Provided (Some false)))
                 Sample.clinic_world))
  = Raise (ValueError "Provider is not active and cannot accept bookings")
      (world_of (ProviderService.update_provider 1
                   (ProviderUpdate.mk Unset Unset Unset Unset Unset
                      (Provided (Some false)))
                   Sample.clinic_world)).
Proof.
  refine (proj2 (proj2 (deactivated_provider_refuses_bookings 1
                          (ProviderUpdate.mk Unset Unset Unset Unset Unset
                             (Provided (Some false)))
                          Sample.clinic_world _
                          (Provider.mk 1 (Sample.text "City Clinic")
                             (Sample.text "medical") None None None false
                             1000000 1000002)
                          _ _))
            (Sample.john 604800000000) _).
  - reflexivity.
  - vm_compute. reflexivity.
  - reflexivity.
Defined.

(** ** A registered provider takes bookings *)

Lemma register_provider_found (data : ProviderCreate.t) (w w' : World)
    (p : Provider.t) :
  keys_ok (db w) ->
  ProviderService.register_provider data w = Return p w' ->
  find_provider (Provider.id p) (db w') = Some p
  /\ Provider.is_active p = true.
Proof.
  intros (_ & Hpb & _) Hreg.
  apply register_provider_inv in Hreg.
  rewrite provider_create_eq in Hreg. injection Hreg as <- <-.
  split; [|reflexivity].
  unfold find_provider. simpl.
  rewrite (find_appended Provider.id).
  rewrite (find_fresh Provider.id _ _ Hpb). simpl.
  now rewrite Z.eqb_refl.
Qed.

(** ** Null for a column that is not nullable *)

Lemma set_required_none {A} (old : A) (f : field (option A)) :
  set_required old f = None <-> no_null f = false.
Proof. destruct f as [|[v|]]; simpl; split; congruence. Qed.

Lemma booking_setattrs_some (b : Booking.t) (data : BookingUpdate.t) :
  booking_payload_ok data = true <->
  exists c, BookingRepository.setattrs b data = Some c.
Proof.
  unfold booking_payload_ok, BookingRepository.setattrs.
  destruct (BookingUpdate.client_name data) as [|[?|]];
    destruct (BookingUpdate.client_phone data) as [|[?|]];
    destruct (BookingUpdate.scheduled_at data) as [|[?|]];
    destruct (BookingUpdate.status data) as [|[?|]]; simpl;
    split; intros H; try discriminate; try (eexists; reflexivity);
    destruct H as [c H]; discriminate.
Qed.

Lemma provider_setattrs_some (p : Provider.t) (data : ProviderUpdate.t) :
  provider_payload_ok data = true <->
  exists c, ProviderRepository.setattrs p data = Some c.
Proof.
  unfold provider_payload_ok, ProviderRepository.setattrs.
  destruct (ProviderUpdate.name data) as [|[?|]];
    destruct (ProviderUpdate.sector data) as [|[?|]];
    destruct (ProviderUpdate.is_active data) as [|[?|]]; simpl;
    split; intros H; try discriminate; try (eexists; reflexivity);
    destruct H as [c H]; discriminate.
Qed.

Lemma update_booking_found (i : Z) (data : BookingUpdate.t) (w : World)
    (b : Booking.t) :
  find_booking i (db w) = Some b ->
  if booking_payload_ok data
  then exists b' w', BookingService.update_booking i data w = Return b' w'
  else BookingService.update_booking i data w = Raise IntegrityError w.
Proof.
  intros Hfind. unfold BookingService.update_booking, bind.
  rewrite (booking_update_found i data w b Hfind).
  destruct (booking_payload_ok data) eqn:Hok.
  - apply (booking_setattrs_some b) in Hok. destruct Hok as [c ->].
    destruct (Booking.eq_dec c b); do 2 eexists; reflexivity.
  - destruct (BookingRepository.setattrs b data) as [c|] eqn:Hs;
      [|reflexivity].
    assert (booking_payload_ok data = true)
      by (apply (booking_setattrs_some b); eauto).
    congruence.
Qed.

Lemma update_provider_found (i : Z) (data : ProviderUpdate.t) (w : World)
    (p : Provider.t) :
  find_provider i (db w) = Some p ->
  if provider_payload_ok data
  then exists p' w', ProviderService.update_provider i data w = Return p' w'
  else ProviderService.update_provider i data w = Raise IntegrityError w.
Proof.
  intros Hfind. unfold ProviderService.update_provider, bind.
  rewrite (provider_update_found i data w p Hfind).
  destruct (provider_payload_ok data) eqn:Hok.
  - apply (provider_setattrs_some p) in Hok. destruct Hok as [c ->].
    destruct (Provider.eq_dec c p); do 2 eexists; reflexivity.
  - destruct (ProviderRepository.setattrs p data) as [c|] eqn:Hs;
      [|reflexivity].
    assert (provider_payload_ok data = true)
      by (apply (provider_setattrs_some p); eauto).
    congruence.
Qed.

Lemma update_provider_missing (i : Z) (data : ProviderUpdate.t) (w : World) :
  find_provider i (db w) = None ->
  ProviderService.update_provider i data w
  = Raise (ProviderService.not_found i) w.
Proof.
  intros Hfind. unfold ProviderService.update_provider, bind.
  now rewrite (provider_update_missing i data w Hfind).
Qed.

Lemma status_setattrs (b : Booking.t) (s : BookingStatus.t) :
  BookingRepository.setattrs b
    (BookingUpdate.mk Unset Unset Unset Unset Unset (Provided (Some s)) Unset)
  = Some (Booking.mk (Booking.id b) (Booking.provider_id b)
            (Booking.client_name b) (Booking.client_phone b)
            (Booking.client_email b) (Booking.service_type b)
            (Booking.scheduled_at b) s
            (Booking.notes b) (Booking.created_at b) (Booking.updated_at b)).
Proof. reflexivity. Qed.

(** X12: the status of a booking can be set from any value to any value:
    on a stored booking, whatever its status, the update whose payload sets
    only [status] succeeds and returns the booking with that status and
    every other column set by a payload as it was. *)
Theorem any_status_transition (i : Z) (s : BookingStatus.t) (w : World)
    (b : Booking.t) :
  find_booking i (db w) = Some b ->
  exists b' w',
    BookingService.update_booking i
      (BookingUpdate.mk Unset Unset Unset Unset Unset (Provided (Some s))
         Unset) w
    = Return b' w'
    /\ Booking.status b' = s
    /\ Booking.client_name b' = Booking.client_name b
    /\ Booking.client_phone b' = Booking.client_phone b
    /\ Booking.client_email b' = Booking.client_email b
    /\ Booking.service_type b' = Booking.service_type b
    /\ Booking.scheduled_at b' = Booking.scheduled_at b
    /\ Booking.notes b' = Booking.notes b
    /\ Booking.provider_id b' = Booking.provider_id b.
Proof.
  intros Hfind. unfold BookingService.update_booking, bind.
  rewrite (booking_update_found i _ w b Hfind).
  rewrite status_setattrs.
  match goal with
  | |- context [Booking.eq_dec ?c b] =>
      destruct (Booking.eq_dec c b) as [E|_]
  end.
  - do 2 eexists. split; [reflexivity|].
    rewrite <- E at 1. simpl. repeat split.
  - do 2 eexists. split; [reflexivity|]. simpl. repeat split.
Qed.

Lemma any_status_transition_witness :
  exists b' w',
    BookingService.update_booking 1
      (BookingUpdate.mk Unset Unset Unset Unset Unset
         (Provided (Some BookingStatus.COMPLETED)) Unset)
      Sample.booked_world
    = Return b' w'
    /\ Booking.status b' = BookingStatus.COMPLETED
    /\ Booking.client_name b' = Booking.client_name Sample.pending_booking
    /\ Booking.client_phone b' = Booking.client_phone Sample.pending_booking
    /\ Booking.client_email b' = Booking.client_email Sample.pending_booking
    /\ Booking.service_type b' = Booking.service_type Sample.pending_booking
    /\ Booking.scheduled_at b' = Booking.scheduled_at Sample.pending_booking
    /\ Booking.notes b' = Booking.notes Sample.pending_booking
    /\ Booking.provider_id b' = Booking.provider_id Sample.pending_booking.
Proof.
  refine (any_status_transition 1 BookingStatus.COMPLETED Sample.booked_world
            Sample.pending_booking _).
  vm_compute. reflexivity.
Defined.

(** ** The routes *)

Lemma delete_booking_body_missing (i : Z) (w : World) :
  find_booking i (db w) = None ->
  (BookingService.delete_booking i ;;; ret tt) w
  = Raise (BookingService.not_found i) w.
Proof.
  intros Hfind. unfold BookingService.delete_booking, bind.
  now rewrite (booking_delete_missing i w Hfind).
Qed.

Lemma delete_provider_body_missing (i : Z) (w : World) :
  find_provider i (db w) = None ->
  (ProviderService.delete_provider i ;;; ret tt) w
  = Raise (ProviderService.not_found i) w.
Proof.
  intros Hfind. unfold ProviderService.delete_provider, bind.
  now rewrite (provider_delete_missing i w Hfind).
Qed.

(** ** What a listing returns *)

Lemma filter_if_in {A} (truthy : A -> bool) (arg : option A)
    (cond : A -> Booking.t -> bool) (q : list Booking.t) (b : Booking.t) :
  In b (BookingRepository.filter_if truthy arg cond q) ->
  In b q
  /\ forall x, arg = Some x -> truthy x = true -> cond x b = true.
Proof.
  unfold BookingRepository.filter_if.
  destruct arg as [x|]; [|intros H; split; [exact H | discriminate]].
  destruct (truthy x) eqn:Ht.
  - intros H. apply filter_In in H. destruct H as [Hin Hc].
    split; [exact Hin|]. now intros y [= <-] _.
  - intros H. split; [exact H|]. intros y [= <-] Hy. congruence.
Qed.

Lemma in_firstn {A} (n : nat) (l : list A) (x : A) :
  In x (firstn n l) -> In x l.
Proof.
  revert l. induction n as [|n IH]; intros l H; [contradiction|].
  destruct l as [|y l]; [contradiction|].
  destruct H as [H|H]; [now left | right; now apply IH].
Qed.

Lemma in_firstn_skipn {A} (n m : nat) (l : list A) (x : A) :
  In x (firstn n (skipn m l)) -> In x l.
Proof.
  intros H. apply in_firstn in H. revert l H.
  induction m as [|m IH]; intros l H; [exact H|].
  destruct l as [|y l]; [contradiction|]. right. now apply IH.
Qed.

(** X15: whatever the arguments, the bookings [list_all] returns are rows
    of the table, in ascending order of [scheduled_at], at most [limit] of
    them; each has the status asked for, a time within the bounds asked
    for, both bounds included, and the provider asked for when that is not
    0. *)
Theorem list_all_sound (skip limit : nat) (provider_id : option Z)
    (status : option BookingStatus.t) (from_date to_date : option datetime)
    (w : World) :
  exists rows,
    BookingRepository.list_all skip limit provider_id status from_date
      to_date w = Return rows w
    /\ Sorted earlier rows
    /\ (List.length rows <= limit)%nat
    /\ forall b, In b rows ->
         In b (bookings (db w))
         /\ (forall s, status = Some s -> Booking.status b = s)
         /\ (forall f, from_date = Some f -> f <= Booking.scheduled_at b)
         /\ (forall t, to_date = Some t -> Booking.scheduled_at b <= t)
         /\ (forall x, provider_id = Some x -> x <> 0 ->
               Booking.provider_id b = x).
Proof.
  eexists. split; [reflexivity|].
  split; [apply Sorted_firstn, Sorted_skipn, order_by_scheduled_at_sorted|].
  split; [apply firstn_le_length|].
  intros b Hin. apply in_firstn_skipn in Hin.
  apply (Permutation_in _ (order_by_scheduled_at_perm _)) in Hin.
  apply filter_if_in in Hin. destruct Hin as [Hin Hto].
  apply filter_if_in in Hin. destruct Hin as [Hin Hfrom].
  apply filter_if_in in Hin. destruct Hin as [Hin Hst].
  apply filter_if_in in Hin. destruct Hin as [Hin Hp].
  split; [exact Hin|]. repeat split.
  - intros s Hs. specialize (Hst s Hs (status_truthy s)).
    unfold BookingStatus.eqb in Hst.
    now destruct (BookingStatus.eq_dec (Booking.status b) s).
  - intros f Hf. specialize (Hfrom f Hf eq_refl).
    apply Z.geb_le in Hfrom. exact Hfrom.
  - intros t Ht. specialize (Hto t Ht eq_refl). now apply Z.leb_le.
  - intros x Hx Hnz. apply Z.eqb_eq. apply (Hp x Hx).
    unfold truthy_int. now apply negb_true_iff, Z.eqb_neq.
Qed.

Lemma list_all_sound_witness :
  exists rows,
    BookingRepository.list_all 0 100 (Some 1) (Some BookingStatus.PENDING)
      (Some 1000000) (Some 604800000000) Sample.booked_world
    = Return rows Sample.booked_world
    /\ Sorted earlier rows
    /\ (List.length rows <= 100)%nat
    /\ forall b, In b rows ->
         In b (bookings (db Sample.booked_world))
         /\ (forall s, Some BookingStatus.PENDING = Some s ->
               Booking.status b = s)
         /\ (forall f, Some 1000000 = Some f -> f <= Booking.scheduled_at b)
         /\ (forall t, Some 604800000000 = Some t ->
               Booking.scheduled_at b <= t)
         /\ (forall x, Some 1 = Some x -> x <> 0 ->
               Booking.provider_id b = x).
Proof.
  exact (list_all_sound 0 100 (Some 1) (Some BookingStatus.PENDING)
           (Some 1000000) (Some 604800000000) Sample.booked_world).
Defined.

(** X16: without pagination ([skip = 0] and a [limit] no smaller than the
    table) and with a provider filter other than 0, [list_all] returns each
    booking that meets every filter supplied, once: the rows returned are a
    permutation of the rows of the table that meet them. *)
Theorem list_all_complete (limit : nat) (provider_id : option Z)
    (status : option BookingStatus.t) (from_date to_date : option datetime)
    (w : World) :
  provider_id <> Some 0 ->
  (List.length (bookings (db w)) <= limit)%nat ->
  exists rows,
    BookingRepository.list_all 0 limit provider_id status from_date to_date w
    = Return rows w
    /\ Permutation rows
         (filter (ListAllSpec.matches provider_id status from_date to_date)
                 (bookings (db w))).
Proof.
  intros Hp Hlen. eexists. split.
  - now apply list_all_meets_spec.
  - unfold ListAllSpec.list_all. simpl skipn.
    rewrite firstn_all2.
    + apply order_by_scheduled_at_perm.
    + rewrite (Permutation_length (order_by_scheduled_at_perm _)).
      apply Nat.le_trans with (2 := Hlen). apply filter_length_le.
Qed.

Lemma list_all_complete_witness :
  exists rows,
    BookingRepository.list_all 0 100 (Some 1)
      (Some BookingStatus.PENDING) None None Sample.booked_world
    = Return rows Sample.booked_world
    /\ Permutation rows
         (filter (ListAllSpec.matches (Some 1) (Some BookingStatus.PENDING)
                    None None)
                 (bookings (db Sample.booked_world))).
Proof.
  apply list_all_complete.
  - discriminate.
  - vm_compute. repeat constructor.
Defined.

(** X17: whatever the arguments, the providers [list_all] returns are rows
    of the table, at most [limit] of them, each with the sector asked for
    when that is not the empty string; the empty string as sector is no
    filter at all; and without pagination every provider of the table with
    the sector asked for is returned. *)
Theorem provider_list_all_sound (skip limit : nat) (sector : option str)
    (w : World) :
  exists rows,
    ProviderRepository.list_all skip limit sector w = Return rows w
    /\ (List.length rows <= limit)%nat
    /\ (forall p, In p rows ->
          In p (providers (db w))
          /\ forall s, sector = Some s -> s <> [] -> Provider.sector p = s)
    /\ (sector = Some [] ->
        rows = firstn limit (skipn skip (providers (db w))))
    /\ (skip = 0%nat -> (List.length (providers (db w)) <= limit)%nat ->
        forall p, In p (providers (db w)) ->
          (forall s, sector = Some s -> Provider.sector p = s) ->
          In p rows).
Proof.
  eexists. split; [reflexivity|].
  split; [apply firstn_le_length|].
  split; [|split].
  - intros p Hin. apply in_firstn_skipn in Hin.
    destruct sector as [s|]; [|split; [exact Hin | discriminate]].
    destruct s as [|c s]; simpl in Hin.
    + split; [exact Hin|]. intros s' [= <-] Hne. now elim Hne.
    + apply filter_In in Hin. destruct Hin as [Hin Hs].
      split; [exact Hin|]. intros s' [= <-] _.
      now destruct (str_eq_dec (Provider.sector p) (c :: s)).
  - intros ->. reflexivity.
  - intros -> Hlen p Hin Hs. simpl skipn.
    rewrite firstn_all2.
    + destruct sector as [s|]; [|exact Hin].
      destruct s as [|c s]; simpl; [exact Hin|].
      apply filter_In. split; [exact Hin|].
      destruct (str_eq_dec (Provider.sector p) (c :: s)) as [_|Hne];
        [reflexivity|].
      elim Hne. now apply Hs.
    + destruct sector as [s|]; [|exact Hlen].
      destruct (truthy_str s); [|exact Hlen].
      apply Nat.le_trans with (2 := Hlen). apply filter_length_le.
Qed.

Lemma provider_list_all_sound_witness :
  exists rows,
    ProviderRepository.list_all 0 100 (Some (Sample.text "medical"))
      Sample.clinic_world = Return rows Sample.clinic_world
    /\ (List.length rows <= 100)%nat
    /\ (forall p, In p rows ->
          In p (providers (db Sample.clinic_world))
          /\ forall s, Some (Sample.text "medical") = Some s -> s <> [] ->
               Provider.sector p = s)
    /\ (Some (Sample.text "medical") = Some [] ->
        rows = firstn 100 (skipn 0 (providers (db Sample.clinic_world))))
    /\ (0%nat = 0%nat ->
        (List.length (providers (db Sample.clinic_world)) <= 100)%nat ->
        forall p, In p (providers (db Sample.clinic_world)) ->
          (forall s, Some (Sample.text "medical") = Some s ->
             Provider.sector p = s) ->
          In p rows).
Proof.
  exact (provider_list_all_sound 0 100 (Some (Sample.text "medical"))
           Sample.clinic_world).
Defined.

(** ** What no request changes *)

(** The booking stored under [i], if any, has the provider and the creation
    stamp recorded in [o]; nothing is stored under [i] when [o] is [None]. *)
Lemma step_keeps_identity (i : Z) (o : option (Z * datetime))
    (w w' : World) :
  keys_ok (db w) -> i <= bookings_id_seq (db w) ->
  (forall b, find_booking i (db w) = Some b ->
     o = Some (Booking.provider_id b, Booking.created_at b)) ->
  step w w' ->
  i <= bookings_id_seq (db w')
  /\ (forall b, find_booking i (db w') = Some b ->
        o = Some (Booking.provider_id b, Booking.created_at b)).
Proof.
  intros (_ & _ & _ & Hbb) Hseq Hid Hstep.
  destruct Hstep as [| |data|j data p c Hfind Hs|j p Hfind Hex
                     |data p Hfind|j data b0 c Hfind Hs|j b0 Hfind]; simpl;
    try (split; assumption).
  - split; [lia|]. intros b. unfold find_booking. simpl.
    rewrite (find_appended Booking.id).
    fold (find_booking i (db w)).
    destruct (find_booking i (db w)) as [b1|] eqn:Hf.
    + intros [= <-]. now apply Hid.
    + simpl. destruct (_ =? i) eqn:E; [|discriminate].
      apply Z.eqb_eq in E. lia.
  - split; [exact Hseq|]. intros b. unfold find_booking. simpl.
    pose proof Hfind as Hk. apply (find_key Booking.id) in Hk.
    destruct Hk as [Hk _].
    pose proof Hs as Hfr. apply booking_setattrs_frame in Hfr.
    destruct Hfr as [(Hcid & Hcp & Hcc & _) _].
    destruct (Z.eq_dec j i) as [->|Hne].
    + unfold BookingRepository.replace_row.
      rewrite (find_replaced Booking.id i _ b0
                 (Booking.set_updated_at c (now w)) Hfind)
        by (simpl; congruence).
      intros [= <-]. simpl. rewrite Hcp, Hcc. now apply Hid.
    + unfold BookingRepository.replace_row.
      rewrite (find_other_replaced Booking.id i
                 (Booking.set_updated_at c (now w)))
        by (simpl; congruence).
      apply Hid.
  - split; [exact Hseq|]. intros b. unfold find_booking, other_bookings.
    simpl. destruct (Z.eq_dec j i) as [->|Hne].
    + now rewrite (find_removed Booking.id).
    + rewrite (find_other_removed Booking.id i j) by exact Hne. apply Hid.
Qed.

Lemma run_keeps_identity (i : Z) (o : option (Z * datetime))
    (rs : list request) (w : World) :
  keys_ok (db w) -> i <= bookings_id_seq (db w) ->
  (forall b, find_booking i (db w) = Some b ->
     o = Some (Booking.provider_id b, Booking.created_at b)) ->
  forall b, find_booking i (db (run rs w)) = Some b ->
    o = Some (Booking.provider_id b, Booking.created_at b).
Proof.
  intros Hk Hseq Hid.
  assert (H : keys_ok (db (run rs w))
              /\ i <= bookings_id_seq (db (run rs w))
              /\ forall b, find_booking i (db (run rs w)) = Some b ->
                   o = Some (Booking.provider_id b, Booking.created_at b)).
  { apply (run_keeps
             (fun x => keys_ok (db x)
                       /\ i <= bookings_id_seq (db x)
                       /\ forall b, find_booking i (db x) = Some b ->
                            o = Some (Booking.provider_id b,
                                      Booking.created_at b)));
      [|split; [exact Hk | split; [exact Hseq | exact Hid]]].
    intros x x' (Hx & Hs & Hf) Hstep.
    split; [now apply (step_keeps_keys x x')|].
    now apply (step_keeps_identity i o x x'). }
  tauto.
Qed.

Lemma found_within_sequence (i : Z) (d : DB) (b : Booking.t) :
  keys_ok d -> find_booking i d = Some b -> i <= bookings_id_seq d.
Proof.
  intros (_ & _ & _ & Hbb) Hfind.
  apply (find_key Booking.id) in Hfind. destruct Hfind as [<- Hin].
  rewrite Forall_forall in Hbb. now apply Hbb.
Qed.

(** X18: with distinct ids drawn from the sequence, a stored booking keeps
    its provider and its [created_at] through every sequence of requests:
    whatever is stored under its id afterwards has the same two values. *)
Theorem booking_identity_preserved (i : Z) (rs : list request) (w : World)
    (b b' : Booking.t) :
  keys_ok (db w) ->
  find_booking i (db w) = Some b ->
  find_booking i (db (run rs w)) = Some b' ->
  Booking.provider_id b' = Booking.provider_id b
  /\ Booking.created_at b' = Booking.created_at b.
Proof.
  intros Hk Hfind Hfind'.
  assert (H : Some (Booking.provider_id b, Booking.created_at b)
              = Some (Booking.provider_id b', Booking.created_at b')).
  { apply (run_keeps_identity i _ rs w Hk); [| |exact Hfind'].
    - exact (found_within_sequence i (db w) b Hk Hfind).
    - intros b0 Hb0. congruence. }
  injection H as H1 H2. now split.
Qed.

Lemma booking_identity_preserved_witness :
  Booking.provider_id Sample.confirmed_booking
  = Booking.provider_id Sample.pending_booking
  /\ Booking.created_at Sample.confirmed_booking
     = Booking.created_at Sample.pending_booking.
Proof.
  refine (booking_identity_preserved 1
            [UpdateBooking 1 Sample.confirm; DeleteBooking 2]
            Sample.booked_world Sample.pending_booking
            Sample.confirmed_booking _ _ _).
  - repeat split; repeat constructor; vm_compute; intuition discriminate.
  - vm_compute. reflexivity.
  - vm_compute. reflexivity.
Defined.

(** X19: with distinct ids drawn from the sequence, an id that the sequence
    has passed and that is not stored (the id of a deleted booking) is
    never stored again, whatever requests follow. *)
Theorem booking_id_not_reused (i : Z) (rs : list request) (w : World) :
  keys_ok (db w) ->
  i <= bookings_id_seq (db w) ->
  find_booking i (db w) = None ->
  find_booking i (db (run rs w)) = None.
Proof.
  intros Hk Hseq Hnone.
  destruct (find_booking i (db (run rs w))) as [b|] eqn:Hf; [|reflexivity].
  assert (H : None = Some (Booking.provider_id b, Booking.created_at b)).
  { apply (run_keeps_identity i None rs w Hk Hseq); [|exact Hf].
    intros b0 Hb0. congruence. }
  discriminate.
Qed.

Lemma booking_id_not_reused_witness :
  find_booking 1
    (db (run [CreateBooking (Sample.john 604800000000);
              CreateBooking (Sample.john 604800000000)]
             (world_of (BookingService.delete_booking 1
                          Sample.booked_world))))
  = None.
Proof.
  apply booking_id_not_reused.
  - repeat split; repeat constructor; vm_compute; intuition discriminate.
  - vm_compute. discriminate.
  - vm_compute. reflexivity.
Defined.

(** ** Strict increase of [updated_at] *)

Lemma advancing_lt (c : nat -> datetime) :
  advancing c -> forall n m : nat, (n < m)%nat -> c n < c m.
Proof.
  intros Hadv n m Hlt. induction Hlt as [|m _ IH].
  - apply Hadv.
  - specialize (Hadv m). lia.
Qed.

Lemma step_keeps_stamps_before (w w' : World) :
  advancing (clock w) -> stamps_before w -> step w w' -> stamps_before w'.
Proof.
  intros Hadv [Hp Hb] Hstep.
  pose proof (advancing_lt (clock w) Hadv) as Hlt.
  assert (Hnow : now w <= now w').
  { destruct (step_keeps_clock w w' Hstep) as [Hc Hr].
    unfold now. rewrite Hc.
    destruct (Nat.eq_dec (reads w) (reads w')) as [->|Hne]; [lia|].
    apply Z.lt_le_incl, Hlt. lia. }
  assert (Hp' : Forall (fun p => Provider.updated_at p < now w')
                       (providers (db w))).
  { apply Forall_impl with (2 := Hp). intros p H. lia. }
  assert (Hb' : Forall (fun b => Booking.updated_at b < now w')
                       (bookings (db w))).
  { apply Forall_impl with (2 := Hb). intros b H. lia. }
  clear Hnow. unfold stamps_before.
  destruct Hstep as [| |data|i data p c Hfind Hs|i p Hfind Hex
                     |data p Hfind|i data b c Hfind Hs|i b Hfind];
    simpl in *.
  - now split.
  - now split.
  - split; [|exact Hb'].
    apply Forall_app. split; [exact Hp'|].
    constructor; [|constructor]. simpl. unfold now; simpl. apply Hadv.
  - split; [|exact Hb'].
    unfold ProviderRepository.replace_row. apply Forall_map.
    apply Forall_forall. intros x Hx.
    rewrite Forall_forall in Hp'.
    destruct (Provider.id x =? _); [|now apply Hp'].
    destruct c; simpl. unfold now; simpl. apply Hadv.
  - split; [|exact Hb'].
    unfold other_providers. apply Forall_forall. intros x Hx.
    apply filter_In in Hx. rewrite Forall_forall in Hp'. now apply Hp'.
  - split; [exact Hp'|].
    apply Forall_app. split; [exact Hb'|].
    constructor; [|constructor]. simpl. unfold now; simpl. apply Hadv.
  - split; [exact Hp'|].
    unfold BookingRepository.replace_row. apply Forall_map.
    apply Forall_forall. intros x Hx.
    rewrite Forall_forall in Hb'.
    destruct (Booking.id x =? _); [|now apply Hb'].
    destruct c; simpl. unfold now; simpl. apply Hadv.
  - split; [exact Hp'|].
    unfold other_bookings. apply Forall_forall. intros x Hx.
    apply filter_In in Hx. rewrite Forall_forall in Hb'. now apply Hb'.
Qed.

(** Under an advancing clock, every stamp of a store reached by requests is
    earlier than the next reading. *)
Lemma run_keeps_stamps_before (rs : list request) (w : World) :
  advancing (clock w) -> stamps_before w -> stamps_before (run rs w).
Proof.
  intros Hadv Hok.
  assert (H : clock (run rs w) = clock w /\ stamps_before (run rs w)).
  { apply (run_keeps (fun x => clock x = clock w /\ stamps_before x));
      [|now split].
    intros x x' [Hc Hs] Hstep. split.
    - destruct (step_keeps_clock x x' Hstep) as [Hc' _]. congruence.
    - apply (step_keeps_stamps_before x x');
        [now rewrite Hc | exact Hs | exact Hstep]. }
  tauto.
Qed.

(** C7, amended: take a clock each reading of which is later than the one
    before, and a store reached by any requests from one whose stamps are
    earlier than the clock (the empty store is one). There, a successful
    update that changes some column stamps [updated_at] with the reading
    taken at the commit, and that stamp is strictly later than the one the
    record had; a successful update that changes no column (an empty
    payload, or values equal to the current ones) leaves the record, its
    [updated_at] and the world as they were. For bookings and for
    providers. *)
Theorem update_refreshes_updated_at_on_change
    (rs : list request) (w0 : World) :
  advancing (clock w0) -> stamps_before w0 ->
  (forall (i : Z) (data : BookingUpdate.t) (w' : World) (b b' : Booking.t),
      find_booking i (db (run rs w0)) = Some b ->
      BookingRepository.update i data (run rs w0) = Return (Some b') w' ->
      (BookingRepository.setattrs b data <> Some b ->
       Booking.updated_at b' = now (run rs w0)
       /\ Booking.updated_at b < Booking.updated_at b')
      /\ (BookingRepository.setattrs b data = Some b ->
          b' = b /\ w' = run rs w0))
  /\
  (forall (i : Z) (data : ProviderUpdate.t) (w' : World) (p p' : Provider.t),
      find_provider i (db (run rs w0)) = Some p ->
      ProviderRepository.update i data (run rs w0) = Return (Some p') w' ->
      (ProviderRepository.setattrs p data <> Some p ->
       Provider.updated_at p' = now (run rs w0)
       /\ Provider.updated_at p < Provider.updated_at p')
      /\ (ProviderRepository.setattrs p data = Some p ->
          p' = p /\ w' = run rs w0)).
Proof.
  intros Hadv Hok.
  destruct (run_keeps_stamps_before rs w0 Hadv Hok) as [Hp Hb].
  set (w := run rs w0) in *.
  split.
  - intros i data w' b b' Hfind Hu.
    assert (Hlt : Booking.updated_at b < now w).
    { rewrite Forall_forall in Hb. apply Hb.
      apply find_some in Hfind. tauto. }
    rewrite (booking_update_found i data w b Hfind) in Hu.
    destruct (BookingRepository.setattrs b data) as [c|]; [|discriminate].
    destruct (Booking.eq_dec c b) as [->|Hne].
    + injection Hu as <- <-. split; [congruence | now split].
    + cbv zeta in Hu. injection Hu as <- <-. split.
      * intros _. simpl. split; [reflexivity | exact Hlt].
      * congruence.
  - intros i data w' p p' Hfind Hu.
    assert (Hlt : Provider.updated_at p < now w).
    { rewrite Forall_forall in Hp. apply Hp.
      apply find_some in Hfind. tauto. }
    rewrite (provider_update_found i data w p Hfind) in Hu.
    destruct (ProviderRepository.setattrs p data) as [c|]; [|discriminate].
    destruct (Provider.eq_dec c p) as [->|Hne].
    + injection Hu as <- <-. split; [congruence | now split].
    + cbv zeta in Hu. injection Hu as <- <-. split.
      * intros _. simpl. split; [reflexivity | exact Hlt].
      * congruence.
Qed.

Lemma update_refreshes_updated_at_on_change_witness :
  Booking.updated_at Sample.confirmed_booking
  = now (run [RegisterProvider Sample.city_clinic;
              CreateBooking (Sample.john 604800000000)]
             Sample.empty_world)
  /\ Booking.updated_at Sample.pending_booking
     < Booking.updated_at Sample.confirmed_booking.
Proof.
  assert (Hadv : advancing (clock Sample.empty_world)).
  { intros n. simpl. unfold Sample.ticking. lia. }
  assert (Hok : stamps_before Sample.empty_world) by (split; constructor).
  pose proof (proj1 (update_refreshes_updated_at_on_change
                       [RegisterProvider Sample.city_clinic;
                        CreateBooking (Sample.john 604800000000)]
                       Sample.empty_world Hadv Hok)
                1 Sample.confirm
                (world_of (BookingRepository.update 1 Sample.confirm
                             Sample.booked_world))
                Sample.pending_booking Sample.confirmed_booking) as H.
  assert (Hfind : find_booking 1
                    (db (run [RegisterProvider Sample.city_clinic;
                              CreateBooking (Sample.john 604800000000)]
                             Sample.empty_world))
                  = Some Sample.pending_booking)
    by (vm_compute; reflexivity).
  specialize (H Hfind).
  assert (Hu : BookingRepository.update 1 Sample.confirm
                 (run [RegisterProvider Sample.city_clinic;
                       CreateBooking (Sample.john 604800000000)]
                      Sample.empty_world)
               = Return (Some Sample.confirmed_booking)
                   (world_of (BookingRepository.update 1 Sample.confirm
                                Sample.booked_world)))
    by (vm_compute; reflexivity).
  specialize (H Hu). destruct H as [H _].
  apply H. vm_compute. discriminate.
Defined.

(** ** Booking a provider that has just registered *)

(** X10: with distinct ids drawn from the sequence, a booking for a
    provider that has just registered is never refused as naming an unknown
    provider nor as naming an inactive one; and when it is created it is
    pending, names that provider, and is the one row the bookings have
    gained since before the registration. *)
Theorem registered_provider_passes_checks
    (data : ProviderCreate.t) (w w' : World) (p : Provider.t)
    (booking : BookingCreate.t) :
  keys_ok (db w) ->
  ProviderService.register_provider data w = Return p w' ->
  BookingCreate.provider_id booking = Provider.id p ->
  (forall e w'',
      BookingService.create_booking booking w' = Raise e w'' ->
      e <> ValueError ("Provider with ID " ++ str_of_int (Provider.id p)
                       ++ " not found")
      /\ e <> ValueError "Provider is not active and cannot accept bookings")
  /\ (forall b w'',
        BookingService.create_booking booking w' = Return b w'' ->
        Booking.status b = BookingStatus.PENDING
        /\ Booking.provider_id b = Provider.id p
        /\ bookings (db w'') = bookings (db w) ++ [b]).
Proof.
  intros Hkeys Hreg Hid.
  destruct (register_provider_found data w w' p Hkeys Hreg) as [Hfind Hact].
  assert (Hbk : bookings (db w') = bookings (db w)).
  { apply register_provider_inv in Hreg.
    rewrite provider_create_eq in Hreg. now injection Hreg as _ <-. }
  pose proof (create_booking_checks_in_order booking w') as H.
  rewrite Hid, Hfind, Hact in H. simpl in H.
  split.
  - intros e w'' Hc.
    destruct (BookingCreate.scheduled_at booking <? now w').
    + destruct H as (w1 & H & _). rewrite H in Hc.
      injection Hc as <- _. split; discriminate.
    + destruct H as (b & w1 & H & _). rewrite H in Hc. discriminate.
  - intros b w'' Hc.
    pose proof Hc as Hinv. apply create_booking_inv in Hinv.
    destruct Hinv as (_ & _ & _ & _ & -> & ->).
    simpl. rewrite Hbk. repeat split. exact Hid.
Qed.

Lemma registered_provider_passes_checks_witness :
  Booking.status Sample.pending_booking = BookingStatus.PENDING
  /\ Booking.provider_id Sample.pending_booking
     = Provider.id (Provider.mk 1 (Sample.text "City Clinic")
                      (Sample.text "medical") None None None true
                      1000000 1000001)
  /\ bookings (db Sample.booked_world)
     = bookings (db Sample.empty_world) ++ [Sample.pending_booking].
Proof.
  refine (proj2 (registered_provider_passes_checks Sample.city_clinic
                   Sample.empty_world Sample.clinic_world _
                   (Sample.john 604800000000) _ _ _)
            Sample.pending_booking Sample.booked_world _).
  - repeat split; constructor.
  - vm_compute. reflexivity.
  - reflexivity.
  - vm_compute. reflexivity.
Defined.

(** ** What an update needs *)

(** X11: an update succeeds only on an id that is stored and with a payload
    that sets no column that is not nullable to null (client_name,
    client_phone, scheduled_at, status of a booking; name, sector, is_active
    of a provider); on an id that is not stored it raises the not-found
    [ValueError] and leaves the world as it was. For bookings and for
    providers. *)
Theorem update_needs_stored_record :
  (forall (i : Z) (data : BookingUpdate.t) (w w' : World) (b' : Booking.t),
      BookingService.update_booking i data w = Return b' w' ->
      (exists b, find_booking i (db w) = Some b)
      /\ booking_payload_ok data = true)
  /\ (forall (i : Z) (data : BookingUpdate.t) (w : World),
        find_booking i (db w) = None ->
        BookingService.update_booking i data w
        = Raise (BookingService.not_found i) w)
  /\ (forall (i : Z) (data : ProviderUpdate.t) (w w' : World)
             (p' : Provider.t),
        ProviderService.update_provider i data w = Return p' w' ->
        (exists p, find_provider i (db w) = Some p)
        /\ provider_payload_ok data = true)
  /\ (forall (i : Z) (data : ProviderUpdate.t) (w : World),
        find_provider i (db w) = None ->
        ProviderService.update_provider i data w
        = Raise (ProviderService.not_found i) w).
Proof.
  split; [|split; [|split]].
  - intros i data w w' b' Hu.
    destruct (find_booking i (db w)) as [b|] eqn:Hfind.
    + split; [now exists b|].
      pose proof (update_booking_found i data w b Hfind) as H.
      destruct (booking_payload_ok data); [reflexivity|]. congruence.
    + rewrite (update_booking_missing i data w Hfind) in Hu. discriminate.
  - exact update_booking_missing.
  - intros i data w w' p' Hu.
    destruct (find_provider i (db w)) as [p|] eqn:Hfind.
    + split; [now exists p|].
      pose proof (update_provider_found i data w p Hfind) as H.
      destruct (provider_payload_ok data); [reflexivity|]. congruence.
    + rewrite (update_provider_missing i data w Hfind) in Hu. discriminate.
  - exact update_provider_missing.
Qed.

Lemma update_needs_stored_record_witness :
  (exists b, find_booking 1 (db Sample.booked_world) = Some b)
  /\ booking_payload_ok Sample.confirm = true.
Proof.
  refine (proj1 update_needs_stored_record 1 Sample.confirm
            Sample.booked_world _ Sample.confirmed_booking _).
  vm_compute. reflexivity.
Defined.

(** ** The answers of the routes *)

Lemma except_ValueError_respond {A} (success failure : Z) (m : M A)
    (w w' : World) (c : Z) (a : A) :
  except_ValueError success failure m w = Respond c a w' ->
  c = success /\ m w = Return a w'.
Proof.
  unfold except_ValueError.
  destruct (m w) as [x w1|[msg|] w1]; try discriminate.
  now intros [= <- <- <-].
Qed.

Lemma except_ValueError_http {A} (success failure : Z) (m : M A)
    (w w' : World) (c : Z) (d : string) :
  except_ValueError success failure m w = HTTPException c d w' ->
  c = failure /\ m w = Raise (ValueError d) w'.
Proof.
  unfold except_ValueError.
  destruct (m w) as [x w1|[msg|] w1]; try discriminate.
  now intros [= <- <- <-].
Qed.

Lemma create_booking_raise_db (data : BookingCreate.t) (w w' : World)
    (e : exn) :
  BookingService.create_booking data w = Raise e w' -> db w' = db w.
Proof.
  intros Hc. pose proof (create_booking_checks_in_order data w) as H.
  destruct (find_provider _ _) as [p|].
  - destruct (negb (Provider.is_active p)).
    + rewrite H in Hc. now injection Hc as _ <-.
    + destruct (BookingCreate.scheduled_at data <? now w).
      * destruct H as (w1 & H & Hdb). rewrite H in Hc.
        now injection Hc as _ <-.
      * destruct H as (b & w1 & H & _). rewrite H in Hc. discriminate.
  - rewrite H in Hc. now injection Hc as _ <-.
Qed.

(** X13: answers of the booking routes that address one booking. POST
    answers 400 with the not-found message for a provider that is not
    stored (not 404) and 400 with the inactive message for one that is
    stored inactive; whenever it answers 201 the booking is pending, its
    provider was found active and its time is not before the clock; every
    [HTTPException] it raises has status 400 and leaves the store as it
    was. GET answers 200 with the stored booking, and 404 when the id is not
    stored. PATCH, cancel and DELETE answer 404 when the id is not stored,
    with the world as it was; a PATCH that answers 200 was for a stored id,
    with a payload that sets no column that is not nullable to null, and the
    booking returned is then the one stored; cancelling a stored booking
    answers 200 with status cancelled; deleting a stored booking answers 204
    and the id is no longer stored. *)
Theorem booking_routes_outcome (w : World) :
  (forall payload,
      (find_provider (BookingCreate.provider_id payload) (db w) = None ->
       BookingRoutes.create_booking payload w
       = HTTPException 400
           ("Provider with ID "
            ++ str_of_int (BookingCreate.provider_id payload)
            ++ " not found") w)
      /\ (forall p,
            find_provider (BookingCreate.provider_id payload) (db w) = Some p ->
            Provider.is_active p = false ->
            BookingRoutes.create_booking payload w
            = HTTPException 400
                "Provider is not active and cannot accept bookings" w)
      /\ (forall c b w',
            BookingRoutes.create_booking payload w = Respond c b w' ->
            c = 201
            /\ Booking.status b = BookingStatus.PENDING
            /\ now w <= BookingCreate.scheduled_at payload
            /\ exists p,
                 find_provider (BookingCreate.provider_id payload) (db w)
                 = Some p
                 /\ Provider.is_active p = true)
      /\ (forall c d w',
            BookingRoutes.create_booking payload w = HTTPException c d w' ->
            c = 400 /\ db w' = db w))
  /\ (forall i,
        BookingRoutes.get_booking i w
        = match find_booking i (db w) with
          | Some b => Respond 200 b w
          | None =>
              HTTPException 404
                ("Booking with ID " ++ str_of_int i ++ " not found") w
          end)
  /\ (forall i payload,
        (find_booking i (db w) = None ->
         BookingRoutes.update_booking i payload w
         = HTTPException 404
             ("Booking with ID " ++ str_of_int i ++ " not found") w)
        /\ (forall c b' w',
              BookingRoutes.update_booking i payload w = Respond c b' w' ->
              c = 200
              /\ (exists b, find_booking i (db w) = Some b)
              /\ booking_payload_ok payload = true
              /\ find_booking i (db w') = Some b'))
  /\ (forall i,
        match find_booking i (db w) with
        | None =>
            BookingRoutes.cancel_booking i w
            = HTTPException 404
                ("Booking with ID " ++ str_of_int i ++ " not found") w
        | Some _ =>
            exists b' w',
              BookingRoutes.cancel_booking i w = Respond 200 b' w'
              /\ Booking.status b' = BookingStatus.CANCELLED
        end)
  /\ (forall i,
        match find_booking i (db w) with
        | None =>
            BookingRoutes.delete_booking i w
            = HTTPException 404
                ("Booking with ID " ++ str_of_int i ++ " not found") w
        | Some _ =>
            exists w',
              BookingRoutes.delete_booking i w = Respond 204 tt w'
              /\ find_booking i (db w') = None
        end).
Proof.
  split; [|split; [|split; [|split]]].
  - intros payload. split; [|split; [|split]].
    + intros Hfind. unfold BookingRoutes.create_booking, except_ValueError.
      now rewrite (create_booking_unknown payload w Hfind).
    + intros p Hfind Hact.
      unfold BookingRoutes.create_booking, except_ValueError.
      now rewrite (create_booking_inactive payload w p Hfind Hact).
    + intros c b w' Hr. apply except_ValueError_respond in Hr.
      destruct Hr as [-> Hc]. split; [reflexivity|].
      apply create_booking_inv in Hc.
      destruct Hc as (p & Hfind & Hact & Hnow & -> & _).
      split; [reflexivity|]. split; [exact Hnow|]. now exists p.
    + intros c d w' Hr. apply except_ValueError_http in Hr.
      destruct Hr as [-> Hc]. split; [reflexivity|].
      exact (create_booking_raise_db payload w w' _ Hc).
  - intros i. unfold BookingRoutes.get_booking, except_ValueError.
    destruct (find_booking i (db w)) as [b|] eqn:Hfind.
    + now rewrite (get_booking_found i w b Hfind).
    + now rewrite (get_booking_missing i w Hfind).
  - intros i payload. split.
    + intros Hfind. unfold BookingRoutes.update_booking, except_ValueError.
      now rewrite (update_booking_missing i payload w Hfind).
    + intros c b' w' Hr. apply except_ValueError_respond in Hr.
      destruct Hr as [-> Hu]. split; [reflexivity|].
      destruct (find_booking i (db w)) as [b|] eqn:Hfind.
      * split; [now exists b|].
        pose proof (update_booking_found i payload w b Hfind) as H.
        split.
        { destruct (booking_payload_ok payload); [reflexivity|]. congruence. }
        apply update_booking_inv, booking_update_inv in Hu.
        destruct Hu as (b0 & _ & _ & Hst & _). exact Hst.
      * rewrite (update_booking_missing i payload w Hfind) in Hu.
        discriminate.
  - intros i. unfold BookingRoutes.cancel_booking, except_ValueError.
    destruct (find_booking i (db w)) as [b|] eqn:Hfind.
    + unfold BookingService.cancel_booking, BookingService.update_booking,
        bind.
      rewrite (booking_update_found i _ w b Hfind), cancel_setattrs.
      match goal with
      | |- context [Booking.eq_dec ?c b] =>
          destruct (Booking.eq_dec c b) as [E|_]
      end.
      * do 2 eexists. split; [reflexivity|]. now rewrite <- E.
      * do 2 eexists. split; reflexivity.
    + unfold BookingService.cancel_booking.
      now rewrite (update_booking_missing i _ w Hfind).
  - intros i. unfold BookingRoutes.delete_booking, except_ValueError.
    destruct (find_booking i (db w)) as [b|] eqn:Hfind.
    + unfold BookingService.delete_booking, bind.
      rewrite (booking_delete_found i w b Hfind).
      eexists. split; [reflexivity|]. apply (find_removed Booking.id).
    + now rewrite (delete_booking_body_missing i w Hfind).
Qed.

Lemma booking_routes_outcome_witness :
  201 = 201
  /\ Booking.status Sample.pending_booking = BookingStatus.PENDING
  /\ now Sample.clinic_world
     <= BookingCreate.scheduled_at (Sample.john 604800000000)
  /\ exists p,
       find_provider (BookingCreate.provider_id (Sample.john 604800000000))
         (db Sample.clinic_world) = Some p
       /\ Provider.is_active p = true.
Proof.
  refine (proj1 (proj2 (proj2 (proj1 (booking_routes_outcome
                                        Sample.clinic_world)
                                 (Sample.john 604800000000))))
            201 Sample.pending_booking Sample.booked_world _).
  vm_compute. reflexivity.
Defined.

(** X14: answers of the provider routes that address one provider. POST
    answers 400 "Provider name cannot be empty" for a name of whitespace
    only and, the name having content, 400 "Provider sector cannot be empty"
    for a sector of whitespace only; whenever it answers 201 the provider is
    active and carries the name and the sector of the payload, which have
    content; every [HTTPException] it raises has status 400 and leaves the
    store as it was. GET answers 200 with the stored provider, and 404 when
    the id is not stored. PATCH and DELETE answer 404 when the id is not
    stored, with the world as it was; a PATCH that answers 200 was for a
    stored id, with a payload that sets none of name, sector and is_active
    to null, and the provider returned is then the one stored; deleting a
    stored provider that a booking names is not caught by the route
    ([IntegrityError]) and leaves the store as it was; deleting a stored
    provider that no booking names answers 204 and the id is no longer
    stored. *)
Theorem provider_routes_outcome (w : World) :
  (forall payload,
      (whitespace_only (ProviderCreate.name payload) = true ->
       ProviderRoutes.create_provider payload w
       = HTTPException 400 "Provider name cannot be empty" w)
      /\ (whitespace_only (ProviderCreate.name payload) = false ->
          whitespace_only (ProviderCreate.sector payload) = true ->
          ProviderRoutes.create_provider payload w
          = HTTPException 400 "Provider sector cannot be empty" w)
      /\ (forall c p w',
            ProviderRoutes.create_provider payload w = Respond c p w' ->
            c = 201
            /\ Provider.is_active p = true
            /\ Provider.name p = ProviderCreate.name payload
            /\ Provider.sector p = ProviderCreate.sector payload
            /\ has_content (Provider.name p)
            /\ has_content (Provider.sector p))
      /\ (forall c d w',
            ProviderRoutes.create_provider payload w = HTTPException c d w' ->
            c = 400 /\ db w' = db w))
  /\ (forall i,
        ProviderRoutes.get_provider i w
        = match find_provider i (db w) with
          | Some p => Respond 200 p w
          | None =>
              HTTPException 404
                ("Provider with ID " ++ str_of_int i ++ " not found") w
          end)
  /\ (forall i payload,
        (find_provider i (db w) = None ->
         ProviderRoutes.update_provider i payload w
         = HTTPException 404
             ("Provider with ID " ++ str_of_int i ++ " not found") w)
        /\ (forall c p' w',
              ProviderRoutes.update_provider i payload w = Respond c p' w' ->
              c = 200
              /\ (exists p, find_provider i (db w) = Some p)
              /\ provider_payload_ok payload = true
              /\ find_provider i (db w') = Some p'))
  /\ (forall i,
        match find_provider i (db w) with
        | None =>
            ProviderRoutes.delete_provider i w
            = HTTPException 404
                ("Provider with ID " ++ str_of_int i ++ " not found") w
        | Some _ =>
            if existsb (fun b => Booking.provider_id b =? i) (bookings (db w))
            then exists w',
                   ProviderRoutes.delete_provider i w
                   = Unhandled IntegrityError w'
                   /\ db w' = db w
            else exists w',
                   ProviderRoutes.delete_provider i w = Respond 204 tt w'
                   /\ find_provider i (db w') = None
                   /\ bookings (db w') = bookings (db w)
        end).
Proof.
  split; [|split; [|split]].
  - intros payload.
    assert (Hreg : ProviderService.register_provider payload w
                   = if whitespace_only (ProviderCreate.name payload)
                     then Raise (ValueError "Provider name cannot be empty") w
                     else if whitespace_only (ProviderCreate.sector payload)
                     then Raise (ValueError "Provider sector cannot be empty")
                            w
                     else ProviderRepository.create payload w).
    { unfold ProviderService.register_provider.
      rewrite !truthy_strip, !negb_involutive.
      destruct (whitespace_only (ProviderCreate.name payload));
        [reflexivity|].
      now destruct (whitespace_only (ProviderCreate.sector payload)). }
    unfold ProviderRoutes.create_provider.
    split; [|split; [|split]].
    + intros Hn. unfold except_ValueError. now rewrite Hreg, Hn.
    + intros Hn Hs. unfold except_ValueError. now rewrite Hreg, Hn, Hs.
    + intros c p w' Hr. apply except_ValueError_respond in Hr.
      destruct Hr as [-> Hc]. split; [reflexivity|].
      rewrite Hreg in Hc.
      destruct (whitespace_only (ProviderCreate.name payload)) eqn:Hn;
        [discriminate|].
      destruct (whitespace_only (ProviderCreate.sector payload)) eqn:Hs;
        [discriminate|].
      rewrite provider_create_eq in Hc. injection Hc as <- <-. simpl.
      repeat split; assumption.
    + intros c d w' Hr. apply except_ValueError_http in Hr.
      destruct Hr as [-> Hc]. split; [reflexivity|].
      rewrite Hreg in Hc.
      destruct (whitespace_only (ProviderCreate.name payload));
        [now injection Hc as _ <-|].
      destruct (whitespace_only (ProviderCreate.sector payload));
        [now injection Hc as _ <-|].
      rewrite provider_create_eq in Hc. discriminate.
  - intros i. unfold ProviderRoutes.get_provider, except_ValueError.
    destruct (find_provider i (db w)) as [p|] eqn:Hfind.
    + now rewrite (get_provider_found i w p Hfind).
    + now rewrite (get_provider_missing i w Hfind).
  - intros i payload. split.
    + intros Hfind. unfold ProviderRoutes.update_provider, except_ValueError.
      now rewrite (update_provider_missing i payload w Hfind).
    + intros c p' w' Hr. apply except_ValueError_respond in Hr.
      destruct Hr as [-> Hu]. split; [reflexivity|].
      destruct (find_provider i (db w)) as [p|] eqn:Hfind.
      * split; [now exists p|].
        pose proof (update_provider_found i payload w p Hfind) as H.
        split.
        { destruct (provider_payload_ok payload); [reflexivity|].
          congruence. }
        apply update_provider_inv, provider_update_inv in Hu.
        destruct Hu as (p0 & _ & _ & Hst & _). exact Hst.
      * rewrite (update_provider_missing i payload w Hfind) in Hu.
        discriminate.
  - intros i. unfold ProviderRoutes.delete_provider, except_ValueError.
    destruct (find_provider i (db w)) as [p|] eqn:Hfind.
    + unfold ProviderService.delete_provider, bind.
      rewrite (provider_delete_found i w p Hfind).
      destruct (existsb _ _).
      * eexists. split; reflexivity.
      * eexists. split; [reflexivity|].
        split; [apply (find_removed Provider.id) | reflexivity].
    + now rewrite (delete_provider_body_missing i w Hfind).
Qed.

Lemma provider_routes_outcome_witness :
  201 = 201
  /\ true = true
  /\ Sample.text "City Clinic" = ProviderCreate.name Sample.city_clinic
  /\ Sample.text "medical" = ProviderCreate.sector Sample.city_clinic
  /\ has_content (Sample.text "City Clinic")
  /\ has_content (Sample.text "medical").
Proof.
  refine (proj1 (proj2 (proj2 (proj1 (provider_routes_outcome
                                        Sample.empty_world)
                                 Sample.city_clinic)))
            201
            (Provider.mk 1 (Sample.text "City Clinic")
               (Sample.text "medical") None None None true 1000000 1000001)
            Sample.clinic_world _).
  vm_compute. reflexivity.
Defined.
